(** * Daily Temperature Wave: the calculation engine, embedded and verified

    A shallow embedding of the temperature-wave engine of the
    [daily_temperature_wave] Home Assistant component:

    - [utils/temperature.py]  (module [Temperature]): unit conversion and
      step quantisation;
    - [utils/solar.py]        (module [Solar]): hours from solar noon and the
      rising indicator;
    - [sensor.py]             (module [Sensor]): point reading, 24-hour and
      7-day forecasts, and the visual frame;
    - the parser and the unit symbol of [utils/temperature.py] (module
      [TemperatureText]) and [get_solar_noon] of [utils/solar.py] (module
      [SolarNoon]), over the text primitives of module [Text].  The builtins
      [float], [int] and [datetime.fromisoformat] are parameters of these
      definitions.

    Numbers.  Python [float]s are idealised as real numbers ([R]): every
    arithmetic operation is exact, [math.sin] is [sin], [math.pi] is [PI].
    Reals neither round nor overflow: that [math.sin(math.pi)] is a double
    close to 0 and not 0, and that [math.sin] raises on an infinite
    argument, are outside this model.  Python [int]s are [Z].  An exception
    is an explicit [Raise] result. *)

From Stdlib Require Import Reals Lra Lia ZArith Bool List String Ascii.
Import ListNotations.

Open Scope R_scope.

(** ** Python primitives used by the component *)

Module Py.

(** The exceptions raised by the code embedded here: a division by zero in
    the arithmetic of the engine, and the two ways in which [datetime.time]
    refuses its arguments. *)
Inductive exn : Set :=
| ZeroDivisionError
| ValueError
| OverflowError.

(** The outcome of running a piece of Python: a value or a raised exception. *)
Inductive result (A : Type) : Type :=
| Ok (a : A)
| Raise (e : exn).

Arguments Ok {A} a.
Arguments Raise {A} e.

Definition bind {A B : Type} (c : result A) (k : A -> result B) : result B :=
  match c with
  | Ok a => k a
  | Raise e => Raise e
  end.

Notation "x <- c ;; k" := (bind c (fun x => k))
  (at level 61, c at next level, right associativity).

(** A [for] loop that appends one item per iteration: the first exception
    aborts the loop and the list built so far is lost. *)
Fixpoint for_each {A B : Type} (body : A -> result B) (l : list A)
  : result (list B) :=
  match l with
  | [] => Ok []
  | a :: l' =>
      b <- body a ;;
      bs <- for_each body l' ;;
      Ok (b :: bs)
  end.

(** [range(n)] as a list of Python ints. *)
Definition range (n : nat) : list Z := map Z.of_nat (seq 0 n).

(** [a / b] on floats: raises on a zero divisor. *)
Definition truediv (a b : R) : result R :=
  if Req_dec_T b 0 then Raise ZeroDivisionError else Ok (a / b).

(** [a <= b] as a boolean. *)
Definition Rle_b (a b : R) : bool := if Rle_dec a b then true else false.

(** [round(x)]: the nearest integer, ties going to the even one. *)
Definition round (x : R) : Z :=
  let n := Int_part x in
  let r := x - IZR n in
  if Rlt_dec r (1 / 2) then n
  else if Rlt_dec (1 / 2) r then (n + 1)%Z
  else if Z.even n then n else (n + 1)%Z.

(** [round(x, ndigits)] for a non-negative number of digits. *)
Definition round_ndigits (x : R) (ndigits : nat) : R :=
  IZR (round (x * 10 ^ ndigits)) / 10 ^ ndigits.

(** [str.upper()] on ASCII text. *)
Definition upper_ascii (c : ascii) : ascii :=
  let n := nat_of_ascii c in
  if ((97 <=? n) && (n <=? 122))%nat then ascii_of_nat (n - 32) else c.

Fixpoint upper (s : string) : string :=
  match s with
  | EmptyString => EmptyString
  | String c s' => String (upper_ascii c) (upper s')
  end.

End Py.

Import Py.

(** ** utils/temperature.py *)

Module Temperature.

(** [convert_to_celsius(value, unit)] *)
Definition convert_to_celsius (value : R) (unit : string) : R :=
  if String.eqb (upper unit) "F" then (value - 32) * 5 / 9 else value.

(** [convert_from_celsius(value, target_unit)] *)
Definition convert_from_celsius (value : R) (target_unit : string) : R :=
  if String.eqb (upper target_unit) "F" then value * 9 / 5 + 32 else value.

(** [round_to_step(value, step)] *)
Definition round_to_step (value step : R) : R :=
  if Rle_dec step 0 then value
  else IZR (round (value / step)) * step.

End Temperature.

(** ** utils/solar.py *)

Module Solar.

(** [datetime.time]: only the hour and the minute are read by the engine. *)
Record time : Set := mk_time { hour : Z; minute : Z }.

(** The values a [datetime.time] can hold. *)
Definition valid_time (t : time) : Prop :=
  (0 <= hour t <= 23)%Z /\ (0 <= minute t <= 59)%Z.

(** [datetime.datetime]: the day as its proleptic ordinal, and the time of
    day returned by [.time()]. *)
Record datetime : Set := mk_datetime { toordinal : Z; time_of : time }.

(** [dt + timedelta(hours=h)] *)
Definition add_hours (dt : datetime) (h : Z) : datetime :=
  let total := (hour (time_of dt) + h)%Z in
  mk_datetime (toordinal dt + total / 24)%Z
              (mk_time (total mod 24)%Z (minute (time_of dt))).

(** [dt + timedelta(days=d)] *)
Definition add_days (dt : datetime) (d : Z) : datetime :=
  mk_datetime (toordinal dt + d)%Z (time_of dt).

(** The host object: the engine only asks it for the current instant,
    [datetime.now(hass.config.time_zone)]. *)
Record HomeAssistant : Set := mk_hass { now : datetime }.

(** [get_current_solar_position(hass, solar_noon)] *)
Definition get_current_solar_position (hass : HomeAssistant)
    (solar_noon : time) : R :=
  let current_time := time_of (now hass) in
  let current_hours := IZR (hour current_time) + IZR (minute current_time) / 60 in
  let solar_noon_hours := IZR (hour solar_noon) + IZR (minute solar_noon) / 60 in
  let hours_from_noon := current_hours - solar_noon_hours in
  if Rlt_dec 12 hours_from_noon then hours_from_noon - 24
  else if Rlt_dec hours_from_noon (-12) then hours_from_noon + 24
  else hours_from_noon.

(** [is_temperature_rising(hass, solar_noon, wave_spread)] *)
Definition is_temperature_rising (hass : HomeAssistant) (solar_noon : time)
    (wave_spread : R) : bool :=
  let hours_from_noon := get_current_solar_position hass solar_noon in
  let effective_period := 12 * wave_spread in
  Rle_b (- effective_period / 2) hours_from_noon
  && Rle_b hours_from_noon (effective_period / 2).

End Solar.

(** ** sensor.py *)

Module Sensor.

Import Temperature Solar.

(** The configuration a [DailyTemperatureWaveSensor] keeps after [__init__].
    The two temperatures and the step are the numbers returned by the parser,
    with the unit of the step kept next to it. *)
Record DailyTemperatureWaveSensor : Type := mk_sensor {
  _min_temp_c : R;
  _max_temp_c : R;
  _step_resolution : R;
  _step_unit : string;
  _wave_spread : R;
  _unit_system : string
}.

(** [_calculate_current_temperature(self, hass, solar_noon, stepwise)] *)
Definition _calculate_current_temperature (self : DailyTemperatureWaveSensor)
    (hass : HomeAssistant) (solar_noon : time) (stepwise : bool) : result R :=
  let hours_from_noon := get_current_solar_position hass solar_noon in
  q <- truediv (PI * hours_from_noon) (12 * _wave_spread self) ;;
  let sine_value := sin q in
  let temp_normalized := (sine_value + 1) / 2 in
  let current_temp_c :=
    _min_temp_c self + (_max_temp_c self - _min_temp_c self) * temp_normalized in
  let current_temp_c :=
    if stepwise then
      let step_c := convert_to_celsius (_step_resolution self) (_step_unit self) in
      round_to_step current_temp_c step_c
    else current_temp_c in
  Ok (convert_from_celsius current_temp_c (_unit_system self)).

(** One item of the 24-hour forecast. *)
Record hourly_item : Type := mk_hourly {
  hi_time : datetime;
  hi_temperature : R;
  hi_hours_from_noon : R
}.

(** The body of the loop of [_generate_24h_forecast], for one [hour]. *)
Definition forecast_24h_item (self : DailyTemperatureWaveSensor)
    (now : datetime) (solar_noon : time) (stepwise : bool) (hour : Z)
  : result hourly_item :=
  let forecast_time := add_hours now hour in
  let current_time := time_of forecast_time in
  let current_hours :=
    IZR (Solar.hour current_time) + IZR (minute current_time) / 60 in
  let solar_noon_hours :=
    IZR (Solar.hour solar_noon) + IZR (minute solar_noon) / 60 in
  let hours_from_noon := current_hours - solar_noon_hours in
  let hours_from_noon :=
    if Rlt_dec 12 hours_from_noon then hours_from_noon - 24
    else if Rlt_dec hours_from_noon (-12) then hours_from_noon + 24
    else hours_from_noon in
  q <- truediv (PI * hours_from_noon) (12 * _wave_spread self) ;;
  let sine_value := sin q in
  let temp_normalized := (sine_value + 1) / 2 in
  let temp_c :=
    _min_temp_c self + (_max_temp_c self - _min_temp_c self) * temp_normalized in
  let temp_c :=
    if stepwise then
      let step_c := convert_to_celsius (_step_resolution self) (_step_unit self) in
      round_to_step temp_c step_c
    else temp_c in
  let temp_display := convert_from_celsius temp_c (_unit_system self) in
  Ok (mk_hourly forecast_time
                (round_ndigits temp_display 1)
                (round_ndigits hours_from_noon 2)).

(** [_generate_24h_forecast(self, hass, solar_noon, stepwise)] *)
Definition _generate_24h_forecast (self : DailyTemperatureWaveSensor)
    (hass : HomeAssistant) (solar_noon : time) (stepwise : bool)
  : result (list hourly_item) :=
  let now := now hass in
  for_each (forecast_24h_item self now solar_noon stepwise) (range 24).

(** [strftime("%A")]: the name of the day, Monday being ordinal 1 modulo 7. *)
Definition day_name (ordinal : Z) : string :=
  nth (Z.to_nat ((ordinal + 6) mod 7))
      ["Monday"; "Tuesday"; "Wednesday"; "Thursday"; "Friday"; "Saturday";
       "Sunday"]%string ""%string.

(** One item of the 7-day forecast.  The date is kept as its ordinal. *)
Record daily_item : Type := mk_daily {
  di_date : Z;
  di_min : R;
  di_max : R;
  di_day_of_week : string
}.

(** The body of the loop of [_generate_7d_forecast], for one [day]. *)
Definition forecast_7d_item (self : DailyTemperatureWaveSensor)
    (now : datetime) (stepwise : bool) (day : Z) : result daily_item :=
  let forecast_date := add_days now day in
  q <- truediv (PI * 12) (12 * _wave_spread self) ;;
  let sine_value_min := sin q in
  let temp_normalized_min := (sine_value_min + 1) / 2 in
  let temp_c_min :=
    _min_temp_c self
    + (_max_temp_c self - _min_temp_c self) * temp_normalized_min in
  let sine_value_max := sin 0 in
  let temp_normalized_max := (sine_value_max + 1) / 2 in
  let temp_c_max :=
    _min_temp_c self
    + (_max_temp_c self - _min_temp_c self) * temp_normalized_max in
  let '(temp_c_min, temp_c_max) :=
    if stepwise then
      let step_c := convert_to_celsius (_step_resolution self) (_step_unit self) in
      (round_to_step temp_c_min step_c, round_to_step temp_c_max step_c)
    else (temp_c_min, temp_c_max) in
  let temp_min_display := convert_from_celsius temp_c_min (_unit_system self) in
  let temp_max_display := convert_from_celsius temp_c_max (_unit_system self) in
  Ok (mk_daily (toordinal forecast_date)
               (round_ndigits temp_min_display 1)
               (round_ndigits temp_max_display 1)
               (day_name (toordinal forecast_date))).

(** [_generate_7d_forecast(self, hass, solar_noon, stepwise)] *)
Definition _generate_7d_forecast (self : DailyTemperatureWaveSensor)
    (hass : HomeAssistant) (solar_noon : time) (stepwise : bool)
  : result (list daily_item) :=
  let now := now hass in
  for_each (forecast_7d_item self now stepwise) (range 7).

(** A point of the rasterised curve. *)
Record point : Type := mk_point { x : Z; y : R; temp : R }.

(** The marker of the current position. *)
Record position : Type := mk_position {
  cp_x : R;
  cp_y : R;
  cp_temp : R;
  cp_hours_from_noon : R
}.

(** The [temperature_range] entry of the visual frame. *)
Record temperature_range : Type := mk_range {
  tr_min : R;
  tr_max : R;
  tr_unit : string
}.

(** The dictionary returned by [_generate_visual_data]. *)
Record visual_data : Type := mk_visual {
  points : list point;
  current_position : position;
  solar_noon_of : time;
  temperature_range_of : temperature_range
}.

(** The body of the loop of [_generate_visual_data], for one [hour]. *)
Definition visual_point (self : DailyTemperatureWaveSensor) (hour : Z)
  : result point :=
  let hours_from_noon := (hour - 12)%Z in
  q <- truediv (PI * IZR hours_from_noon) (12 * _wave_spread self) ;;
  let sine_value := sin q in
  let temp_normalized := (sine_value + 1) / 2 in
  let temp_c :=
    _min_temp_c self + (_max_temp_c self - _min_temp_c self) * temp_normalized in
  let temp_display := convert_from_celsius temp_c (_unit_system self) in
  let x := (hour * 10)%Z in
  d <- truediv ((temp_display - _min_temp_c self) * 100)
               (_max_temp_c self - _min_temp_c self) ;;
  let y := 100 - d in
  Ok (mk_point x y (round_ndigits temp_display 1)).

(** [_generate_visual_data(self, hass, solar_noon)] *)
Definition _generate_visual_data (self : DailyTemperatureWaveSensor)
    (hass : HomeAssistant) (solar_noon : time) : result visual_data :=
  points <- for_each (visual_point self) (range 25) ;;
  let current_hours_from_noon := get_current_solar_position hass solar_noon in
  current_temp <- _calculate_current_temperature self hass solar_noon false ;;
  let current_x := (current_hours_from_noon + 12) * 10 in
  d <- truediv ((current_temp - _min_temp_c self) * 100)
               (_max_temp_c self - _min_temp_c self) ;;
  let current_y := 100 - d in
  Ok (mk_visual points
        (mk_position current_x current_y
                     (round_ndigits current_temp 1)
                     (round_ndigits current_hours_from_noon 1))
        solar_noon
        (mk_range (_min_temp_c self) (_max_temp_c self) (_unit_system self))).

End Sensor.

(** ** Concrete configurations and instants used in the examples *)

Module Scenario.

Import Solar Sensor.

(** A host whose clock shows [h]:[m] on the day of ordinal 739000. *)
Definition at_time (h m : Z) : HomeAssistant :=
  mk_hass (mk_datetime 739000 (mk_time h m)).

(** The defaults of [constants.py]: 20C to 30C, spread 1.0, step 1F,
    unit system "metric". *)
Definition default_sensor : DailyTemperatureWaveSensor :=
  mk_sensor 20 30 1 "F" 1 "metric".

(** The same range displayed in Fahrenheit. *)
Definition fahrenheit_sensor : DailyTemperatureWaveSensor :=
  mk_sensor 20 30 1 "F" 1 "F".






End Scenario.

(** ** Python text primitives, on ASCII text *)

Module Text.

(** The ASCII characters [str.strip()] removes. *)
Definition is_space (c : ascii) : bool :=
  let n := nat_of_ascii c in
  ((9 <=? n) && (n <=? 13) || (28 <=? n) && (n <=? 32))%nat.

Fixpoint lstrip (s : string) : string :=
  match s with
  | EmptyString => EmptyString
  | String c s' => if is_space c then lstrip s' else s
  end.

Fixpoint rstrip (s : string) : string :=
  match s with
  | EmptyString => EmptyString
  | String c s' =>
      match rstrip s' with
      | EmptyString => if is_space c then EmptyString else String c EmptyString
      | r => String c r
      end
  end.

(** A text that does not start with a character [strip] removes. *)
Definition starts_clean (s : string) : Prop :=
  match s with
  | EmptyString => True
  | String c _ => is_space c = false
  end.

(** [s.strip()] *)
Definition strip (s : string) : string := rstrip (lstrip s).

(** [s.endswith(suffix)] *)
Fixpoint endswith (s suffix : string) : bool :=
  String.eqb s suffix
  || match s with
     | EmptyString => false
     | String _ s' => endswith s' suffix
     end.

(** [s[:-1]] *)
Fixpoint drop_last (s : string) : string :=
  match s with
  | EmptyString => EmptyString
  | String c EmptyString => EmptyString
  | String c s' => String c (drop_last s')
  end.

(** [s.split(sep)] for a one-character separator. *)
Fixpoint str_split (sep : ascii) (s : string) : list string :=
  match s with
  | EmptyString => [EmptyString]
  | String c s' =>
      if Ascii.eqb c sep then EmptyString :: str_split sep s'
      else match str_split sep s' with
           | p :: ps => String c p :: ps
           | [] => [String c EmptyString]
           end
  end.

(** Truth value of a string: the empty string is false. *)
Definition nonempty (s : string) : bool :=
  match s with
  | EmptyString => false
  | String _ _ => true
  end.

Definition is_digit (c : ascii) : bool :=
  let n := nat_of_ascii c in ((48 <=? n) && (n <=? 57))%nat.

(** The digits of an integer literal: decimal digits, with single
    underscores allowed between two digits.  [None] is a [ValueError]. *)
Fixpoint digits_value (acc : Z) (after_digit : bool) (s : string) : option Z :=
  match s with
  | EmptyString => if after_digit then Some acc else None
  | String c s' =>
      if is_digit c then
        digits_value (acc * 10 + Z.of_nat (nat_of_ascii c - 48)) true s'
      else if Ascii.eqb c "_" then
        if after_digit then digits_value acc false s' else None
      else None
  end.

(** [int(s)] on ASCII text: surrounding whitespace, an optional sign, then
    the digits.  [None] is a [ValueError]. *)
Definition int_ascii (s : string) : option Z :=
  match strip s with
  | String "+" body => digits_value 0 false body
  | String "-" body => option_map Z.opp (digits_value 0 false body)
  | body => digits_value 0 false body
  end.

End Text.

(** ** utils/temperature.py: the parser and the unit symbol *)

Module TemperatureText.

Import Text.

(** The values the parser can be handed: a string, a number, or anything
    else. *)
Inductive pyval : Type :=
| VStr (s : string)
| VInt (z : Z)
| VFloat (r : R)
| VOther.

(** [TEMP_CELSIUS] and [TEMP_FAHRENHEIT] of [constants.py]. *)
Definition TEMP_CELSIUS : string := "°C".
Definition TEMP_FAHRENHEIT : string := "°F".

(** [get_unit_symbol(unit)] *)
Definition get_unit_symbol (unit : string) : string :=
  if String.eqb (upper unit) "F" then TEMP_FAHRENHEIT else TEMP_CELSIUS.

Section Parser.

(** Python's [float(text)]; [None] is a [ValueError]. *)
Variable py_float : string -> option R.

(** [parse_temperature_value(value)]; [None] is a [ValueError]. *)
Definition parse_temperature_value (value : pyval) : option (R * string) :=
  match value with
  | VInt z => Some (IZR z, "C"%string)
  | VFloat r => Some (r, "C"%string)
  | VOther => None
  | VStr value =>
      let value_str := upper (strip value) in
      if endswith value_str "F" then
        match py_float (drop_last value_str) with
        | Some v => Some (v, "F"%string)
        | None => None
        end
      else if endswith value_str "C" then
        match py_float (drop_last value_str) with
        | Some v => Some (v, "C"%string)
        | None => None
        end
      else
        match py_float value_str with
        | Some v => Some (v, "C"%string)
        | None => None
        end
  end.

(** [parse_step_resolution(step_resolution)] *)
Definition parse_step_resolution (step_resolution : pyval)
  : option (R * string) :=
  parse_temperature_value step_resolution.

End Parser.

End TemperatureText.

(** ** utils/solar.py: the solar noon *)

Module SolarNoon.

Import Text Solar.

(** A [datetime] as [fromisoformat] builds it: the wall clock in
    microseconds since the first instant of the calendar, and the offset from
    UTC in microseconds when the text carries one. *)
Record instant : Set := mk_instant { wall : Z; utcoffset : option Z }.

(** [a - b] on datetimes, in microseconds.  Mixing a datetime that has an
    offset with one that has none raises ([None]). *)
Definition instant_sub (a b : instant) : option Z :=
  match utcoffset a, utcoffset b with
  | Some oa, Some ob => Some ((wall a - oa) - (wall b - ob))%Z
  | None, None => Some (wall a - wall b)%Z
  | _, _ => None
  end.

(** [delta / 2] on a timedelta: the nearest microsecond, ties to even. *)
Definition half_timedelta (d : Z) : Z :=
  let q := (d / 2)%Z in
  if (d mod 2 =? 0)%Z then q
  else if Z.even q then q else (q + 1)%Z.

(** [dt + delta] *)
Definition instant_add (a : instant) (d : Z) : instant :=
  mk_instant (wall a + d)%Z (utcoffset a).

(** [dt.time()], to the minute. *)
Definition instant_time (a : instant) : time :=
  mk_time ((wall a / 3600000000) mod 24)%Z ((wall a / 60000000) mod 60)%Z.

(** The integers that fit a C [int]. *)
Definition c_int (n : Z) : bool :=
  ((-2147483648 <=? n) && (n <=? 2147483647))%Z.

(** [time(hour, minute)], as CPython's [datetime] implements it: the
    arguments are first converted to C [int]s, which raises [OverflowError]
    for a number that does not fit; then an hour outside 0..23 or a minute
    outside 0..59 raises [ValueError]. *)
Definition make_time (hour minute : Z) : result time :=
  if c_int hour && c_int minute then
    if ((0 <=? hour) && (hour <=? 23) && (0 <=? minute) && (minute <=? 59))%Z
    then Ok (mk_time hour minute) else Raise ValueError
  else Raise OverflowError.

(** What [hass.states.get("sun.sun")] returns when the entity exists: its
    state and the two attributes the engine reads. *)
Record SunEntity : Set := mk_sun {
  state : string;
  next_setting : option string;
  next_rising : option string
}.

Section Builtins.

(** Python's [int(text)] and [datetime.fromisoformat(text)]; [None] is a
    [ValueError]. *)
Variable py_int : string -> option Z.
Variable fromisoformat : string -> option instant.

(** The body of the first [try] block of [get_solar_noon]:
    [hour, minute = map(int, solar_noon_override.split(":"))], where a text
    [int] does not read and a number of parts other than two raise
    [ValueError], then [time(hour, minute)]. *)
Definition override_time (solar_noon_override : string) : result time :=
  match str_split ":" solar_noon_override with
  | [a; b] =>
      match py_int a with
      | Some hour =>
          match py_int b with
          | Some minute => make_time hour minute
          | None => Raise ValueError
          end
      | None => Raise ValueError
      end
  | _ => Raise ValueError
  end.

(** The second [try] block of [get_solar_noon]: the time it returns, or
    [None] when it returns nothing or an exception is caught. *)
Definition sun_time (sun_entity : option SunEntity) : option time :=
  match sun_entity with
  | Some sun =>
      if String.eqb (state sun) "above_horizon" then
        match next_setting sun, next_rising sun with
        | Some setting, Some rising =>
            if nonempty setting && nonempty rising then
              match fromisoformat setting with
              | Some setting_time =>
                  match fromisoformat rising with
                  | Some rising_time =>
                      match instant_sub setting_time rising_time with
                      | Some delta =>
                          let solar_noon_time :=
                            instant_add rising_time (half_timedelta delta) in
                          Some (instant_time solar_noon_time)
                      | None => None
                      end
                  | None => None
                  end
              | None => None
              end
            else None
        | _, _ => None
        end
      else None
  | None => None
  end.

(** The [if solar_noon_override:] block of [get_solar_noon]: the time it
    returns, or [None] when the function goes on to the sun entity: without
    override, with an empty one, and when the [try] block catches a
    [ValueError] (it catches [AttributeError] as well, which a text never
    raises).  Any other exception leaves the function. *)
Definition override_block (solar_noon_override : option string)
  : result (option time) :=
  match solar_noon_override with
  | Some text =>
      if nonempty text then
        match override_time text with
        | Ok t => Ok (Some t)
        | Raise ValueError => Ok None
        | Raise e => Raise e
        end
      else Ok None
  | None => Ok None
  end.

(** [get_solar_noon(hass, solar_noon_override)], where [sun_entity] is what
    [hass.states.get("sun.sun")] returns. *)
Definition get_solar_noon (sun_entity : option SunEntity)
    (solar_noon_override : option string) : result time :=
  overridden <- override_block solar_noon_override ;;
  match overridden with
  | Some t => Ok t
  | None =>
      match sun_time sun_entity with
      | Some t => Ok t
      | None => Ok (mk_time 12 0)
      end
  end.

End Builtins.

End SolarNoon.

(** ** A sun entity for the examples *)

Module SunScenario.

Import SolarNoon.

(** [datetime.fromisoformat] on the two texts of the example: 06:00 and
    18:00 on 2024-06-01 (ordinal 739038), without offset. *)
Definition iso_example (text : string) : option instant :=
  if String.eqb text "2024-06-01T06:00:00" then
    Some (mk_instant (739037 * 86400000000 + 6 * 3600000000)%Z None)
  else if String.eqb text "2024-06-01T18:00:00" then
    Some (mk_instant (739037 * 86400000000 + 18 * 3600000000)%Z None)
  else None.

(** The sun above the horizon, rising at 06:00 and setting at 18:00. *)
Definition sun_example : SunEntity :=
  mk_sun "above_horizon" (Some "2024-06-01T18:00:00"%string)
         (Some "2024-06-01T06:00:00"%string).

End SunScenario.

(** * Properties *)

Import Temperature Solar Sensor Scenario.

(** ** Rounding *)

Section Rounding.

Lemma Int_part_unique (x : R) (n : Z) :
  IZR n <= x < IZR n + 1 -> Int_part x = n.
Proof.
  intros [Hlo Hhi]. symmetry. apply Int_part_spec. lra.
Qed.

(** A number strictly closer to [n] than to its neighbours rounds to [n]. *)
Lemma round_near (x : R) (n : Z) :
  IZR n - 1 / 2 < x < IZR n + 1 / 2 -> round x = n.
Proof.
  intros [Hlo Hhi]. unfold round.
  destruct (Rle_lt_dec (IZR n) x) as [Hge | Hlt].
  - rewrite (Int_part_unique x n) by lra.
    destruct (Rlt_dec (x - IZR n) (1 / 2)) as [_ | Hn]; [reflexivity | lra].
  - assert (Hp : Int_part x = (n - 1)%Z).
    { apply Int_part_unique. rewrite minus_IZR. lra. }
    rewrite Hp, minus_IZR.
    destruct (Rlt_dec (x - (IZR n - 1)) (1 / 2)) as [Hn | _]; [lra |].
    destruct (Rlt_dec (1 / 2) (x - (IZR n - 1))) as [_ | Hn]; [lia | lra].
Qed.

(** An exact tie goes to the even neighbour. *)
Lemma round_tie (n : Z) :
  round (IZR n + 1 / 2) = if Z.even n then n else (n + 1)%Z.
Proof.
  unfold round.
  rewrite (Int_part_unique (IZR n + 1 / 2) n) by lra.
  destruct (Rlt_dec (IZR n + 1 / 2 - IZR n) (1 / 2)) as [Hn | _]; [lra |].
  destruct (Rlt_dec (1 / 2) (IZR n + 1 / 2 - IZR n)) as [Hn | _]; [lra |].
  reflexivity.
Qed.

Lemma round_IZR (n : Z) : round (IZR n) = n.
Proof. apply round_near. lra. Qed.

(** [round] never moves a number by more than a half. *)
Lemma round_within_half (x : R) : Rabs (IZR (round x) - x) <= 1 / 2.
Proof.
  unfold round.
  destruct (base_Int_part x) as [Hlo Hhi].
  destruct (Rlt_dec (x - IZR (Int_part x)) (1 / 2)) as [H1 | H1].
  - apply Rabs_le. lra.
  - assert (Hs : IZR (Int_part x + 1) = IZR (Int_part x) + 1)
      by (rewrite plus_IZR; reflexivity).
    destruct (Rlt_dec (1 / 2) (x - IZR (Int_part x))) as [H2 | H2].
    + rewrite Hs. apply Rabs_le. lra.
    + destruct (Z.even (Int_part x)); [| rewrite Hs]; apply Rabs_le; lra.
Qed.

End Rounding.

(** ** Units *)

Section Units.

Example upper_metric : upper "metric" = "METRIC"%string.
Proof. reflexivity. Qed.

Example upper_f : upper "f" = "F"%string.
Proof. reflexivity. Qed.

Lemma convert_from_celsius_F (v : R) :
  convert_from_celsius v "F" = v * 9 / 5 + 32.
Proof. reflexivity. Qed.

Lemma convert_from_celsius_C (v : R) : convert_from_celsius v "C" = v.
Proof. reflexivity. Qed.

Lemma convert_from_celsius_metric (v : R) :
  convert_from_celsius v "metric" = v.
Proof. reflexivity. Qed.

(** The scenarios of the repository's unit tests. *)
Example convert_to_celsius_68F : convert_to_celsius 68 "F" = 20.
Proof. unfold convert_to_celsius. simpl. lra. Qed.

Example convert_from_celsius_100 : convert_from_celsius 100 "F" = 212.
Proof. unfold convert_from_celsius. simpl. lra. Qed.

Example round_to_step_20_3 : round_to_step 20.3 1 = 20.
Proof.
  unfold round_to_step.
  destruct (Rle_dec 1 0) as [H | _]; [lra |].
  rewrite (round_near (20.3 / 1) 20) by lra. lra.
Qed.

Example round_to_step_20_6 : round_to_step 20.6 1 = 21.
Proof.
  unfold round_to_step.
  destruct (Rle_dec 1 0) as [H | _]; [lra |].
  rewrite (round_near (20.6 / 1) 21) by lra. lra.
Qed.

Example round_to_step_20_3_half : round_to_step 20.3 0.5 = 20.5.
Proof.
  unfold round_to_step.
  destruct (Rle_dec 0.5 0) as [H | _]; [lra |].
  rewrite (round_near (20.3 / 0.5) 41) by lra. lra.
Qed.

(** An exact half goes to the even multiple of the step. *)
Example round_to_step_tie : round_to_step 20.5 1 = 20.
Proof.
unfold round_to_step.
destruct (Rle_dec 1 0) as [H | _]; [lra |].
replace (20.5 / 1) with (IZR 20 + 1 / 2) by lra.
rewrite round_tie. simpl. lra.
Qed.

End Units.

(** C5. Converting a value to Celsius from a unit and back to that unit gives
    the value again: [convert_from_celsius (convert_to_celsius x U) U = x],
    for Celsius, for Fahrenheit, and for any other unit text as well. *)
Theorem convert_round_trip (x : R) (U : string) :
  convert_from_celsius (convert_to_celsius x U) U = x.
Proof.
  unfold convert_from_celsius, convert_to_celsius.
  destruct (String.eqb (upper U) "F"); [field | reflexivity].
Qed.

(** C6. With a step that is zero or negative, [round_to_step] returns the
    value unchanged. *)
Theorem round_to_step_nonpositive (x step : R) :
  step <= 0 -> round_to_step x step = x.
Proof.
  intros Hstep. unfold round_to_step.
  destruct (Rle_dec step 0) as [_ | Hn]; [reflexivity | contradiction].
Qed.

Lemma round_to_step_nonpositive_witness :
  0 <= 0 /\ round_to_step 20.3 0 = 20.3.
Proof.
  split; [lra | apply (round_to_step_nonpositive 20.3 0); lra].
Defined.

(** C7. With a positive step, [round_to_step] is idempotent: quantising a
    quantised value changes nothing. *)
Theorem round_to_step_idempotent (x s : R) :
  0 < s -> round_to_step (round_to_step x s) s = round_to_step x s.
Proof.
  intros Hs. unfold round_to_step.
  destruct (Rle_dec s 0) as [Hn | _]; [lra |].
  replace (IZR (round (x / s)) * s / s) with (IZR (round (x / s)))
    by (field; lra).
  rewrite round_IZR. reflexivity.
Qed.

Lemma round_to_step_idempotent_witness :
  0 < 0.5 /\
  round_to_step (round_to_step 20.3 0.5) 0.5 = round_to_step 20.3 0.5.
Proof.
  split; [lra | apply (round_to_step_idempotent 20.3 0.5); lra].
Defined.

(** ** Solar clock *)

Section SolarClock.

Lemma Rle_b_true (a b : R) : Rle_b a b = true <-> a <= b.
Proof.
  unfold Rle_b. destruct (Rle_dec a b) as [H | H]; split; intros H';
    try reflexivity; try assumption; try discriminate; contradiction.
Qed.

(** A valid time of day, as a number of hours, lies in [0, 24). *)
Lemma valid_time_hours (t : time) :
  valid_time t ->
  0 <= IZR (hour t) + IZR (minute t) / 60 <= 23 + 59 / 60.
Proof.
  intros [[Hh0 Hh1] [Hm0 Hm1]].
  apply IZR_le in Hh0, Hh1, Hm0, Hm1. lra.
Qed.

(** Noon seen from a solar noon at 12:00 is at offset 0. *)
Example position_at_noon :
  get_current_solar_position (at_time 12 0) (mk_time 12 0) = 0.
Proof.
  unfold get_current_solar_position; simpl.
  destruct (Rlt_dec 12 (12 + 0 / 60 - (12 + 0 / 60))) as [H | _]; [lra |].
  destruct (Rlt_dec (12 + 0 / 60 - (12 + 0 / 60)) (-12)) as [H | _]; lra.
Qed.

(** Noon seen from a solar noon at 00:00 is at offset 12. *)
Example position_12_after :
  get_current_solar_position (at_time 12 0) (mk_time 0 0) = 12.
Proof.
  unfold get_current_solar_position; simpl.
  destruct (Rlt_dec 12 (12 + 0 / 60 - (0 + 0 / 60))) as [H | _]; [lra |].
  destruct (Rlt_dec (12 + 0 / 60 - (0 + 0 / 60)) (-12)) as [H | _]; lra.
Qed.

(** 23:30 seen from a solar noon at 01:00 wraps around midnight. *)
Example position_wraps :
  get_current_solar_position (at_time 23 30) (mk_time 1 0) = -1.5.
Proof.
  unfold get_current_solar_position; simpl.
  destruct (Rlt_dec 12 (23 + 30 / 60 - (1 + 0 / 60))) as [_ | H]; lra.
Qed.

End SolarClock.

(** C8. For every wall-clock time and every solar noon (hours in 0..23,
    minutes in 0..59), the hours-from-noon value that
    [get_current_solar_position] returns lies in [-12, 12]. *)
Theorem solar_position_bounds (hass : HomeAssistant) (solar_noon : time) :
  valid_time (time_of (now hass)) ->
  valid_time solar_noon ->
  -12 <= get_current_solar_position hass solar_noon <= 12.
Proof.
  intros Hnow Hnoon.
  apply valid_time_hours in Hnow, Hnoon.
  unfold get_current_solar_position.
  destruct (Rlt_dec 12 _) as [Hhi | Hhi]; [lra |].
  destruct (Rlt_dec _ (-12)) as [Hlo | Hlo]; lra.
Qed.

Lemma solar_position_bounds_witness :
  -12 <= get_current_solar_position (at_time 23 30) (mk_time 1 0) <= 12.
Proof.
  apply (solar_position_bounds (at_time 23 30) (mk_time 1 0));
    unfold valid_time; simpl; lia.
Defined.

(** C9. The rising indicator is true exactly when
    [-6 * wave_spread <= hours_from_noon <= 6 * wave_spread], both ends
    included, where [hours_from_noon] is the current solar position.  This
    holds for every spread, in particular for every positive one. *)
Theorem rising_iff_closed_interval (hass : HomeAssistant) (solar_noon : time)
    (wave_spread : R) :
  is_temperature_rising hass solar_noon wave_spread = true <->
  -6 * wave_spread <= get_current_solar_position hass solar_noon
                   <= 6 * wave_spread.
Proof.
  unfold is_temperature_rising.
  rewrite andb_true_iff, !Rle_b_true.
  split; intros [H1 H2]; split; lra.
Qed.

Example rising_at_upper_edge :
  is_temperature_rising (at_time 18 0) (mk_time 12 0) 1 = true.
Proof.
  unfold is_temperature_rising, get_current_solar_position; simpl.
  destruct (Rlt_dec 12 (18 + 0 / 60 - (12 + 0 / 60))) as [H | _]; [lra |].
  destruct (Rlt_dec (18 + 0 / 60 - (12 + 0 / 60)) (-12)) as [H | _]; [lra |].
  apply andb_true_iff; split; apply Rle_b_true; lra.
Qed.

(** ** Loops and division *)

Section Loops.

Context {A B : Type}.
Variable body : A -> result B.

(** A loop whose body never raises returns the list of its items. *)
Lemma for_each_map (g : A -> B) (l : list A) :
  (forall a, In a l -> body a = Ok (g a)) ->
  for_each body l = Ok (map g l).
Proof.
  induction l as [| a l IH]; intros Hbody; simpl.
  - reflexivity.
  - rewrite (Hbody a) by (left; reflexivity). simpl.
    rewrite IH by (intros a' Ha'; apply Hbody; right; exact Ha').
    reflexivity.
Qed.


End Loops.

Lemma truediv_nonzero (a b : R) : b <> 0 -> truediv a b = Ok (a / b).
Proof.
  intros Hb. unfold truediv.
  destruct (Req_dec_T b 0) as [H | _]; [contradiction | reflexivity].
Qed.


(** The [i]-th item of [range(n)] is [i]. *)
Lemma nth_error_range (n i : nat) (h : Z) :
  nth_error (range n) i = Some h -> h = Z.of_nat i /\ (i < n)%nat.
Proof.
  unfold range. rewrite nth_error_map.
  destruct (nth_error (seq 0 n) i) as [k |] eqn:Hk; [| discriminate].
  intros [= <-].
  assert (Hlen : (i < List.length (seq 0 n))%nat).
  { apply nth_error_Some. rewrite Hk. discriminate. }
  rewrite length_seq in Hlen.
  apply (nth_error_nth _ _ 0%nat) in Hk.
  rewrite seq_nth in Hk by exact Hlen. simpl in Hk. subst k.
  split; [reflexivity | exact Hlen].
Qed.




(** ** Point reading *)

(** Without stepping and with a non-zero spread, the point reading is the
    sine formula at the current solar position, in the display unit. *)
Lemma current_temperature_unstepped (self : DailyTemperatureWaveSensor)
    (hass : HomeAssistant) (solar_noon : time) :
  _wave_spread self <> 0 ->
  _calculate_current_temperature self hass solar_noon false =
  Ok (convert_from_celsius
        (_min_temp_c self
         + (_max_temp_c self - _min_temp_c self)
           * ((sin (PI * get_current_solar_position hass solar_noon
                    / (12 * _wave_spread self)) + 1) / 2))
        (_unit_system self)).
Proof.
  intros Hws. unfold _calculate_current_temperature.
  rewrite truediv_nonzero by lra. reflexivity.
Qed.

(** At solar noon the sine is 0, so the reading is the midpoint of the
    range, whatever the non-zero spread. *)
Lemma current_temperature_at_offset_0 (self : DailyTemperatureWaveSensor)
    (hass : HomeAssistant) (solar_noon : time) :
  _wave_spread self <> 0 ->
  get_current_solar_position hass solar_noon = 0 ->
  _calculate_current_temperature self hass solar_noon false =
  Ok (convert_from_celsius ((_min_temp_c self + _max_temp_c self) / 2)
                           (_unit_system self)).
Proof.
  intros Hws H0. rewrite current_temperature_unstepped by assumption.
  rewrite H0.
  replace (PI * 0 / (12 * _wave_spread self)) with 0 by (field; lra).
  rewrite sin_0. do 2 f_equal. lra.
Qed.

(** Twelve hours from solar noon, with spread 1, the sine argument is [PI]
    and the reading is the midpoint again. *)
Lemma current_temperature_at_offset_12 (self : DailyTemperatureWaveSensor)
    (hass : HomeAssistant) (solar_noon : time) :
  _wave_spread self = 1 ->
  get_current_solar_position hass solar_noon = 12 ->
  _calculate_current_temperature self hass solar_noon false =
  Ok (convert_from_celsius ((_min_temp_c self + _max_temp_c self) / 2)
                           (_unit_system self)).
Proof.
  intros Hws H12. rewrite current_temperature_unstepped by lra.
  rewrite H12, Hws.
  replace (PI * 12 / (12 * 1)) with PI by field.
  rewrite sin_PI. do 2 f_equal. lra.
Qed.

(** Six hours after solar noon, with spread 1, the reading is the maximum:
    the peak of the wave as coded is at +6 h, not at noon. *)
Lemma current_temperature_at_offset_6 :
  _calculate_current_temperature default_sensor (at_time 18 0) (mk_time 12 0)
    false = Ok 30.
Proof.
  rewrite current_temperature_unstepped by (simpl; lra).
  assert (Hp : get_current_solar_position (at_time 18 0) (mk_time 12 0) = 6).
  { unfold get_current_solar_position; simpl.
    destruct (Rlt_dec 12 (18 + 0 / 60 - (12 + 0 / 60))) as [H | _]; [lra |].
    destruct (Rlt_dec (18 + 0 / 60 - (12 + 0 / 60)) (-12)) as [H | _]; lra. }
  rewrite Hp. simpl.
  replace (PI * 6 / (12 * 1)) with (PI / 2) by field.
  rewrite sin_PI2. rewrite convert_from_celsius_metric. f_equal. lra.
Qed.

(** C1. For min = 20C, max = 30C, spread = 1.0, the point reading at
    [hours_from_noon = 0] is expected to be 30.0, the configured maximum.
    The code evaluated there returns 25.0, the midpoint of the range:
    [sin 0 = 0] is mapped to the normalised position 1/2. *)
Theorem current_temperature_noon_default :
  get_current_solar_position (at_time 12 0) (mk_time 12 0) = 0 /\
  _calculate_current_temperature default_sensor (at_time 12 0) (mk_time 12 0)
    false = Ok 25 /\
  _max_temp_c default_sensor = 30.
Proof.
  split; [exact position_at_noon |]. split; [| reflexivity].
  rewrite current_temperature_at_offset_0
    by (try exact position_at_noon; simpl; lra).
  simpl. rewrite convert_from_celsius_metric. f_equal. lra.
Qed.

(** C2. For min = 20C, max = 30C, spread = 1.0, the point reading at
    [hours_from_noon = 12] is expected to be 20.0, the configured minimum.
    The code evaluated there returns 25.0, the midpoint of the range:
    [sin PI = 0] is mapped to the normalised position 1/2. *)
Theorem current_temperature_12h_default :
  get_current_solar_position (at_time 12 0) (mk_time 0 0) = 12 /\
  _calculate_current_temperature default_sensor (at_time 12 0) (mk_time 0 0)
    false = Ok 25 /\
  _min_temp_c default_sensor = 20.
Proof.
  split; [exact position_12_after |]. split; [| reflexivity].
  rewrite current_temperature_at_offset_12
    by (try exact position_12_after; reflexivity).
  simpl. rewrite convert_from_celsius_metric. f_equal. lra.
Qed.

(** ** Configurations the engine does not check *)








(** ** Visual frame *)

Section VisualFrame.

Variable self : DailyTemperatureWaveSensor.
Hypothesis spread_nonzero : _wave_spread self <> 0.
Hypothesis range_nonempty : _max_temp_c self <> _min_temp_c self.

(** The temperature of the sample of [hour], in the display unit. *)
Let sample_temp (hour : Z) : R :=
  convert_from_celsius
    (_min_temp_c self
     + (_max_temp_c self - _min_temp_c self)
       * ((sin (PI * IZR (hour - 12) / (12 * _wave_spread self)) + 1) / 2))
    (_unit_system self).

(** The sample of [hour], when no division fails. *)
Let sample (hour : Z) : point :=
  mk_point (hour * 10)
           (100 - (sample_temp hour - _min_temp_c self) * 100
                  / (_max_temp_c self - _min_temp_c self))
           (round_ndigits (sample_temp hour) 1).

Lemma visual_point_ok (hour : Z) : visual_point self hour = Ok (sample hour).
Proof.
  unfold visual_point.
  rewrite truediv_nonzero by lra. simpl.
  rewrite truediv_nonzero by lra. reflexivity.
Qed.

Lemma visual_points_ok :
  for_each (visual_point self) (range 25) = Ok (map sample (range 25)).
Proof. apply for_each_map. intros a _. apply visual_point_ok. Qed.

(** The frame is produced, and its points are the 25 samples. *)
Lemma visual_data_points (hass : HomeAssistant) (solar_noon : time) :
  exists vd,
    _generate_visual_data self hass solar_noon = Ok vd /\
    points vd = map sample (range 25).
Proof.
  unfold _generate_visual_data.
  rewrite visual_points_ok. simpl.
  rewrite current_temperature_unstepped by assumption. simpl.
  rewrite truediv_nonzero by lra.
  eexists. split; reflexivity.
Qed.

(** The pixel abscissa of every sample is ten times its hour. *)
Lemma sample_x (hour : Z) : x (sample hour) = (hour * 10)%Z.
Proof. reflexivity. Qed.

(** When the display unit is Celsius and the range is well ordered, the
    ordinate of every sample lies between 0 and 100. *)
Lemma sample_y_celsius (hour : Z) :
  String.eqb (upper (_unit_system self)) "F" = false ->
  _min_temp_c self < _max_temp_c self ->
  0 <= y (sample hour) <= 100.
Proof.
  intros Hunit Hlt. unfold sample, sample_temp, convert_from_celsius. simpl.
  rewrite Hunit.
  pose proof (SIN_bound (PI * IZR (hour - 12) / (12 * _wave_spread self)))
    as [Hlo Hhi].
  set (s := sin _) in *.
  replace ((_min_temp_c self
            + (_max_temp_c self - _min_temp_c self) * ((s + 1) / 2)
            - _min_temp_c self) * 100
           / (_max_temp_c self - _min_temp_c self))
    with (50 * (s + 1)) by (field; lra).
  lra.
Qed.

End VisualFrame.

(** The curve sampler on a Celsius display: every point of the frame has
    abscissa [hour * 10] and an ordinate in [0, 100]. *)
Lemma visual_points_celsius (self : DailyTemperatureWaveSensor)
    (hass : HomeAssistant) (solar_noon : time) :
  _min_temp_c self < _max_temp_c self ->
  0 < _wave_spread self ->
  String.eqb (upper (_unit_system self)) "F" = false ->
  exists vd,
    _generate_visual_data self hass solar_noon = Ok vd /\
    List.length (points vd) = 25%nat /\
    forall (hour : nat) (p : point),
      nth_error (points vd) hour = Some p ->
      x p = (Z.of_nat hour * 10)%Z /\ 0 <= y p <= 100.
Proof.
  intros Hlt Hws Hunit.
  destruct (visual_data_points self) with (hass := hass)
    (solar_noon := solar_noon) as [vd [Hvd Hpts]]; try lra.
  exists vd. split; [exact Hvd |]. rewrite Hpts. split.
  - rewrite length_map. reflexivity.
  - intros hour p Hp.
    rewrite nth_error_map in Hp.
    destruct (nth_error (range 25) hour) as [h |] eqn:Hh; [| discriminate].
    injection Hp as <-.
    apply nth_error_range in Hh. destruct Hh as [Hhz _].
    subst h. split.
    + reflexivity.
    + apply sample_y_celsius; assumption || lra.
Qed.

(** C4. Every point of the curve sampler is expected to have abscissa
    [hour * 10] and an ordinate in [0, 100], for a Celsius and for a
    Fahrenheit display.  On a Fahrenheit display the code subtracts the
    Celsius minimum from the Fahrenheit sample: for 20C to 30C and spread 1,
    the point of hour 12 has abscissa 120 and ordinate -470. *)
Theorem visual_point_fahrenheit_out_of_range :
  exists (vd : visual_data) (p : point),
    _generate_visual_data fahrenheit_sensor (at_time 12 0) (mk_time 12 0)
      = Ok vd /\
    nth_error (points vd) 12 = Some p /\
    x p = 120%Z /\ y p = -470 /\ ~ (0 <= y p <= 100).
Proof.
  destruct (visual_data_points fahrenheit_sensor) with
    (hass := at_time 12 0) (solar_noon := mk_time 12 0) as [vd [Hvd Hpts]];
    try (simpl; lra).
  exists vd. eexists. split; [exact Hvd |].
  rewrite Hpts, nth_error_map.
  change (nth_error (range 25) 12) with (Some 12%Z).
  split; [reflexivity |].
  assert (Hy : 100 - (convert_from_celsius
                        (20 + (30 - 20)
                              * ((sin (PI * IZR (12 - 12) / (12 * 1)) + 1) / 2))
                        "F" - 20) * 100 / (30 - 20) = -470).
  { replace (PI * IZR (12 - 12) / (12 * 1)) with 0 by (simpl; field).
    rewrite sin_0, convert_from_celsius_F. field. }
  cbv [x y fahrenheit_sensor _min_temp_c _max_temp_c _wave_spread
       _unit_system].
  rewrite Hy. split; [reflexivity |]. split; [reflexivity | lra].
Qed.

(** ** Seven-day forecast *)


Section SevenDays.

Variable self : DailyTemperatureWaveSensor.
Hypothesis spread_one : _wave_spread self = 1.



End SevenDays.

(** The day of ordinal 739000 is a Wednesday. *)
Example day_name_739000 : day_name 739000 = "Wednesday"%string.
Proof. reflexivity. Qed.


(** What holds of the two fields at spread 1 is stated further down, next
    to the lemmas on rounding and conversion it rests on. *)

(** * Further properties of the engine *)

Import Text TemperatureText SolarNoon.

(** ** Units, again *)

Lemma upper_ascii_F (c : ascii) :
  upper_ascii c = "F"%char -> c = "F"%char \/ c = "f"%char.
Proof.
  destruct c as [[] [] [] [] [] [] [] []]; cbv; intros H;
    first [discriminate H | left; reflexivity | right; reflexivity].
Qed.

(** Only the texts "F" and "f" read as Fahrenheit. *)
Lemma upper_is_F (u : string) :
  String.eqb (upper u) "F" = (String.eqb u "F" || String.eqb u "f")%bool.
Proof.
  destruct (String.eqb (upper u) "F") eqn:Hu.
  - apply String.eqb_eq in Hu.
    destruct u as [| c [| d u']]; simpl in Hu; try discriminate Hu.
    injection Hu as Hc. apply upper_ascii_F in Hc.
    destruct Hc as [-> | ->]; reflexivity.
  - destruct (String.eqb u "F") eqn:H1.
    + apply String.eqb_eq in H1. subst u. discriminate Hu.
    + destruct (String.eqb u "f") eqn:H2; [| reflexivity].
      apply String.eqb_eq in H2. subst u. discriminate Hu.
Qed.

(** X1. Converting from Celsius to a unit and back to Celsius gives the
    value again, for every unit text. *)
Theorem convert_to_from_round_trip (x : R) (U : string) :
  convert_to_celsius (convert_from_celsius x U) U = x.
Proof.
  unfold convert_from_celsius, convert_to_celsius.
  destruct (String.eqb (upper U) "F"); [field | reflexivity].
Qed.

(** X2. The Fahrenheit formulas and the Fahrenheit symbol are used exactly
    for the unit texts "F" and "f"; every other text, "imperial" and
    "metric" included, is handled as Celsius. *)
Theorem fahrenheit_exactly_for_F (v : R) (u : string) :
  convert_from_celsius v u
    = (if (String.eqb u "F" || String.eqb u "f")%bool then v * 9 / 5 + 32
       else v) /\
  convert_to_celsius v u
    = (if (String.eqb u "F" || String.eqb u "f")%bool then (v - 32) * 5 / 9
       else v) /\
  get_unit_symbol u
    = (if (String.eqb u "F" || String.eqb u "f")%bool then TEMP_FAHRENHEIT
       else TEMP_CELSIUS).
Proof.
  unfold convert_from_celsius, convert_to_celsius, get_unit_symbol.
  rewrite upper_is_F. repeat split.
Qed.

Lemma convert_from_celsius_le (x y : R) (U : string) :
  x <= y -> convert_from_celsius x U <= convert_from_celsius y U.
Proof.
  intros H. unfold convert_from_celsius.
  destruct (String.eqb (upper U) "F"); lra.
Qed.

(** X3. Both converters keep the order of temperatures: a strictly warmer
    value converts to a strictly warmer value, for every unit text. *)
Theorem converters_increasing (x y : R) (U : string) :
  x < y ->
  convert_from_celsius x U < convert_from_celsius y U /\
  convert_to_celsius x U < convert_to_celsius y U.
Proof.
  intros H. unfold convert_from_celsius, convert_to_celsius.
  destruct (String.eqb (upper U) "F"); split; lra.
Qed.

Lemma converters_increasing_witness :
  convert_from_celsius 20 "F" < convert_from_celsius 30 "F" /\
  convert_to_celsius 20 "F" < convert_to_celsius 30 "F".
Proof. apply (converters_increasing 20 30 "F"). lra. Defined.

(** ** Quantisation, again *)

Lemma round_half_bounds (x : R) : - (1 / 2) <= IZR (round x) - x <= 1 / 2.
Proof.
  pose proof (round_within_half x) as H.
  pose proof (Rle_abs (IZR (round x) - x)) as H1.
  pose proof (Rle_abs (- (IZR (round x) - x))) as H2.
  rewrite Rabs_Ropp in H2. lra.
Qed.

(** [round] keeps the order of its arguments. *)
Lemma round_monotone (x y : R) : x <= y -> (round x <= round y)%Z.
Proof.
  intros Hxy.
  pose proof (round_half_bounds x) as Hx.
  pose proof (round_half_bounds y) as Hy.
  destruct (Z_le_gt_dec (round x) (round y)) as [Hle | Hgt]; [exact Hle |].
  exfalso.
  assert (Hz : (round y + 1 <= round x)%Z) by lia.
  apply IZR_le in Hz. rewrite plus_IZR in Hz.
  assert (Heq : x = y) by lra.
  subst y. lia.
Qed.

Lemma round_ndigits_monotone (x y : R) (n : nat) :
  x <= y -> round_ndigits x n <= round_ndigits y n.
Proof.
  intros Hxy. unfold round_ndigits.
  assert (Hp : 0 < 10 ^ n) by (apply pow_lt; lra).
  apply Rmult_le_compat_r.
  - left. apply Rinv_0_lt_compat. exact Hp.
  - apply IZR_le, round_monotone. apply Rmult_le_compat_r; lra.
Qed.

(** X4. With a positive step, [round_to_step] moves a value by at most half
    a step. *)
Theorem round_to_step_error_bound (x s : R) :
  0 < s -> Rabs (round_to_step x s - x) <= s / 2.
Proof.
  intros Hs. unfold round_to_step.
  destruct (Rle_dec s 0) as [Hn | _]; [lra |].
  pose proof (round_half_bounds (x / s)) as H.
  replace (IZR (round (x / s)) * s - x)
    with ((IZR (round (x / s)) - x / s) * s) by (field; lra).
  apply Rabs_le. split; nra.
Qed.

Lemma round_to_step_error_bound_witness :
  Rabs (round_to_step 20.3 0.5 - 20.3) <= 0.5 / 2.
Proof. apply (round_to_step_error_bound 20.3 0.5). lra. Defined.

(** X5. [round_to_step] keeps the order of values, for every step. *)
Theorem round_to_step_monotone (x y s : R) :
  x <= y -> round_to_step x s <= round_to_step y s.
Proof.
  intros Hxy. unfold round_to_step.
  destruct (Rle_dec s 0) as [_ | Hs]; [exact Hxy |].
  assert (Hpos : 0 < s) by lra.
  apply Rmult_le_compat_r; [lra |].
  apply IZR_le, round_monotone.
  apply Rmult_le_compat_r; [| exact Hxy].
  left. apply Rinv_0_lt_compat. exact Hpos.
Qed.

Lemma round_to_step_monotone_witness :
  round_to_step 20.3 0.5 <= round_to_step 20.6 0.5.
Proof. apply (round_to_step_monotone 20.3 20.6 0.5). lra. Defined.

(** X6. With a positive step, the values [round_to_step] leaves unchanged
    are exactly the integer multiples of the step. *)
Theorem round_to_step_fixed_iff_multiple (x s : R) :
  0 < s ->
  (round_to_step x s = x <-> exists n : Z, x = IZR n * s).
Proof.
  intros Hs. unfold round_to_step.
  destruct (Rle_dec s 0) as [Hn | _]; [lra |].
  split.
  - intros H. exists (round (x / s)). symmetry. exact H.
  - intros [n ->].
    replace (IZR n * s / s) with (IZR n) by (field; lra).
    rewrite round_IZR. reflexivity.
Qed.

Lemma round_to_step_fixed_iff_multiple_witness :
  round_to_step 20.5 0.5 = 20.5 <-> exists n : Z, 20.5 = IZR n * 0.5.
Proof. apply (round_to_step_fixed_iff_multiple 20.5 0.5). lra. Defined.

(** ** The temperature parser *)

Section TextLemmas.

Lemma is_space_upper (c : ascii) : is_space (upper_ascii c) = is_space c.
Proof. destruct c as [[] [] [] [] [] [] [] []]; reflexivity. Qed.

Lemma upper_ascii_idempotent (c : ascii) :
  upper_ascii (upper_ascii c) = upper_ascii c.
Proof. destruct c as [[] [] [] [] [] [] [] []]; reflexivity. Qed.

Lemma upper_idempotent (s : string) : upper (upper s) = upper s.
Proof.
  induction s as [| c s IH]; simpl; [reflexivity |].
  rewrite upper_ascii_idempotent, IH. reflexivity.
Qed.

Lemma lstrip_upper (s : string) : lstrip (upper s) = upper (lstrip s).
Proof.
  induction s as [| c s IH]; simpl; [reflexivity |].
  rewrite is_space_upper. destruct (is_space c); [exact IH | reflexivity].
Qed.

Lemma rstrip_upper (s : string) : rstrip (upper s) = upper (rstrip s).
Proof.
  induction s as [| c s IH]; simpl; [reflexivity |].
  rewrite IH, is_space_upper.
  destruct (rstrip s) as [| d r]; simpl; [| reflexivity].
  destruct (is_space c); reflexivity.
Qed.

Lemma strip_upper (s : string) : strip (upper s) = upper (strip s).
Proof. unfold strip. rewrite lstrip_upper, rstrip_upper. reflexivity. Qed.

Lemma lstrip_starts_clean (s : string) : starts_clean (lstrip s).
Proof.
  induction s as [| c s IH]; simpl; [exact I |].
  destruct (is_space c) eqn:Hc; [exact IH | exact Hc].
Qed.

Lemma lstrip_clean (s : string) : starts_clean s -> lstrip s = s.
Proof.
  destruct s as [| c s]; simpl; [reflexivity |].
  intros ->. reflexivity.
Qed.

Lemma rstrip_starts_clean (s : string) :
  starts_clean s -> starts_clean (rstrip s).
Proof.
  destruct s as [| c s]; simpl; [intros _; exact I |].
  intros Hc. destruct (rstrip s) as [| d r]; [rewrite Hc |]; exact Hc.
Qed.

Lemma rstrip_idempotent (s : string) : rstrip (rstrip s) = rstrip s.
Proof.
  induction s as [| c s IH]; simpl; [reflexivity |].
  destruct (rstrip s) as [| d r] eqn:Hr.
  - destruct (is_space c) eqn:Hc; simpl; [reflexivity |].
    rewrite Hc. reflexivity.
  - change (rstrip (String c (String d r))) with
      (match rstrip (String d r) with
       | EmptyString =>
           if is_space c then EmptyString else String c EmptyString
       | r' => String c r'
       end).
    rewrite IH. reflexivity.
Qed.

Lemma strip_idempotent (s : string) : strip (strip s) = strip s.
Proof.
  unfold strip.
  rewrite (lstrip_clean (rstrip (lstrip s)))
    by (apply rstrip_starts_clean, lstrip_starts_clean).
  apply rstrip_idempotent.
Qed.

End TextLemmas.

(** X7. The parser does not see letter case or surrounding whitespace:
    parsing a text and parsing its stripped, upper-cased form give the same
    result, whatever [float] accepts. *)
Theorem parse_ignores_case_and_spaces (py_float : string -> option R)
    (s : string) :
  parse_temperature_value py_float (VStr s)
  = parse_temperature_value py_float (VStr (upper (strip s))).
Proof.
  unfold parse_temperature_value.
  rewrite strip_upper, upper_idempotent, strip_idempotent. reflexivity.
Qed.

(** X8. Whatever the parser and the step parser accept, the unit they
    return is "C" or "F", and it is "C" for every number. *)
Theorem parse_unit_C_or_F (py_float : string -> option R) (value : pyval) :
  match parse_temperature_value py_float value with
  | Some (_, unit) =>
      (unit = "C"%string \/ unit = "F"%string) /\
      ((forall s, value <> VStr s) -> unit = "C"%string)
  | None => True
  end /\
  parse_step_resolution py_float value
  = parse_temperature_value py_float value.
Proof.
  split; [| reflexivity].
  destruct value as [s | z | r |]; simpl.
  - destruct (endswith (upper (strip s)) "F");
      [| destruct (endswith (upper (strip s)) "C")];
      match goal with
      | |- context [py_float ?t] => destruct (py_float t)
      end; try exact I;
      (split; [auto | intros Hs; exfalso; apply (Hs s); reflexivity]).
  - split; [left; reflexivity | intros _; reflexivity].
  - split; [left; reflexivity | intros _; reflexivity].
  - exact I.
Qed.

Section UnitLetter.

Variable c : ascii.
Hypothesis c_not_space : is_space c = false.

Lemma lstrip_app_char (s : string) :
  lstrip (s ++ String c "") = (lstrip s ++ String c "")%string.
Proof.
  induction s as [| a s IH]; simpl.
  - rewrite c_not_space. reflexivity.
  - destruct (is_space a); [exact IH | reflexivity].
Qed.

Lemma rstrip_app_char (s : string) :
  rstrip (s ++ String c "") = (s ++ String c "")%string.
Proof.
  induction s as [| a s IH]; simpl.
  - rewrite c_not_space. reflexivity.
  - rewrite IH. destruct s; reflexivity.
Qed.

Lemma strip_app_char (s : string) :
  strip (s ++ String c "") = (lstrip s ++ String c "")%string.
Proof. unfold strip. rewrite lstrip_app_char. apply rstrip_app_char. Qed.

End UnitLetter.

Lemma upper_app (s t : string) :
  upper (s ++ t) = (upper s ++ upper t)%string.
Proof.
  induction s as [| a s IH]; simpl; [reflexivity |].
  rewrite IH. reflexivity.
Qed.

Lemma endswith_app_char (s : string) (c : ascii) :
  endswith (s ++ String c "") (String c "") = true.
Proof.
  induction s as [| a s IH].
  - simpl. rewrite Ascii.eqb_refl. reflexivity.
  - change (endswith (String a s ++ String c "") (String c ""))
      with (String.eqb (String a (s ++ String c "")) (String c "")
            || endswith (s ++ String c "") (String c ""))%bool.
    rewrite IH. apply orb_true_r.
Qed.

Lemma endswith_app_other (s : string) (c d : ascii) :
  c <> d -> endswith (s ++ String c "") (String d "") = false.
Proof.
  intros Hcd. apply Ascii.eqb_neq in Hcd.
  induction s as [| a s IH].
  - simpl. rewrite Hcd. reflexivity.
  - change (endswith (String a s ++ String c "") (String d ""))
      with (String.eqb (String a (s ++ String c "")) (String d "")
            || endswith (s ++ String c "") (String d ""))%bool.
    rewrite IH, orb_false_r. simpl.
    destruct (Ascii.eqb a d); [| reflexivity].
    destruct s; reflexivity.
Qed.

Lemma drop_last_app_char (s : string) (c : ascii) :
  drop_last (s ++ String c "") = s.
Proof.
  induction s as [| a s IH]; simpl; [reflexivity |].
  rewrite IH. destruct s; reflexivity.
Qed.

(** X9. A text made of a number and a final unit letter parses to the number
    that [float] reads before the letter, unchanged, with the unit of the
    letter: "F" or "f" gives Fahrenheit, "C" or "c" gives Celsius.  No
    conversion to Celsius takes place in the parser. *)
Theorem parse_unit_letter (py_float : string -> option R) (s : string) :
  let number := py_float (upper (lstrip s)) in
  parse_temperature_value py_float (VStr (s ++ "F"))
    = option_map (fun v => (v, "F"%string)) number /\
  parse_temperature_value py_float (VStr (s ++ "f"))
    = option_map (fun v => (v, "F"%string)) number /\
  parse_temperature_value py_float (VStr (s ++ "C"))
    = option_map (fun v => (v, "C"%string)) number /\
  parse_temperature_value py_float (VStr (s ++ "c"))
    = option_map (fun v => (v, "C"%string)) number.
Proof.
  intros number. unfold parse_temperature_value.
  rewrite !strip_app_char by reflexivity.
  rewrite !upper_app.
  change (upper "F") with "F"%string. change (upper "f") with "F"%string.
  change (upper "C") with "C"%string. change (upper "c") with "C"%string.
  rewrite !endswith_app_char, !drop_last_app_char.
  rewrite (endswith_app_other _ "C" "F") by discriminate.
  fold number. destruct number; repeat split.
Qed.

(** ** The solar noon *)

Lemma make_time_ok (h m : Z) (t : time) :
  make_time h m = Ok t -> t = mk_time h m /\ valid_time t.
Proof.
  unfold make_time.
  destruct (c_int h && c_int m)%bool; [| discriminate].
  destruct ((0 <=? h) && (h <=? 23) && (0 <=? m) && (m <=? 59))%Z eqn:Hb;
    [| discriminate].
  intros [= <-]. split; [reflexivity |].
  apply andb_true_iff in Hb. destruct Hb as [Hb Hm1].
  apply andb_true_iff in Hb. destruct Hb as [Hb Hm0].
  apply andb_true_iff in Hb. destruct Hb as [Hh0 Hh1].
  unfold valid_time; simpl. lia.
Qed.

Lemma c_int_small (n : Z) : (0 <= n <= 59)%Z -> c_int n = true.
Proof.
  intros Hn. unfold c_int. apply andb_true_iff. split; lia.
Qed.

Lemma make_time_valid (h m : Z) :
  (0 <= h <= 23)%Z -> (0 <= m <= 59)%Z -> make_time h m = Ok (mk_time h m).
Proof.
  intros Hh Hm. unfold make_time.
  rewrite (c_int_small h), (c_int_small m) by lia. cbn [andb].
  replace ((0 <=? h) && (h <=? 23) && (0 <=? m) && (m <=? 59))%Z with true;
    [reflexivity |].
  symmetry. rewrite !andb_true_iff. repeat split; lia.
Qed.

(** Numbers that fit a C [int] and are not an hour and a minute are
    refused with a [ValueError]. *)
Lemma make_time_invalid (h m : Z) :
  c_int h = true -> c_int m = true ->
  ~ ((0 <= h <= 23)%Z /\ (0 <= m <= 59)%Z) ->
  make_time h m = Raise ValueError.
Proof.
  intros Hh Hm Hn. unfold make_time. rewrite Hh, Hm. cbn [andb].
  destruct ((0 <=? h) && (h <=? 23) && (0 <=? m) && (m <=? 59))%Z eqn:Hb;
    [| reflexivity].
  exfalso. apply Hn.
  apply andb_true_iff in Hb. destruct Hb as [Hb Hm1].
  apply andb_true_iff in Hb. destruct Hb as [Hb Hm0].
  apply andb_true_iff in Hb. destruct Hb as [Hh0 Hh1]. lia.
Qed.

(** A number that does not fit a C [int] is refused with an
    [OverflowError], whatever the other number is. *)
Lemma make_time_overflow (h m : Z) :
  (c_int h && c_int m)%bool = false -> make_time h m = Raise OverflowError.
Proof.
  intros H. unfold make_time. rewrite H. reflexivity.
Qed.

(** [time(hour, minute)] raises nothing but these two exceptions, and the
    second one only on a number that does not fit a C [int]. *)
Lemma make_time_raises (h m : Z) (e : exn) :
  make_time h m = Raise e ->
  (e = ValueError /\ (c_int h && c_int m)%bool = true) \/
  (e = OverflowError /\ (c_int h && c_int m)%bool = false).
Proof.
  unfold make_time.
  destruct (c_int h && c_int m)%bool.
  - destruct ((0 <=? h) && (h <=? 23) && (0 <=? m) && (m <=? 59))%Z;
      [discriminate |].
    intros [= <-]. left. split; reflexivity.
  - intros [= <-]. right. split; reflexivity.
Qed.

Lemma instant_time_valid (a : instant) : valid_time (instant_time a).
Proof.
  unfold valid_time, instant_time; simpl.
  pose proof (Z.mod_pos_bound (wall a / 3600000000) 24).
  pose proof (Z.mod_pos_bound (wall a / 60000000) 60).
  lia.
Qed.

Lemma override_time_valid (py_int : string -> option Z) (text : string)
    (t : time) :
  override_time py_int text = Ok t -> valid_time t.
Proof.
  unfold override_time.
  destruct (str_split ":" text) as [| a [| b [| c l]]]; try discriminate.
  destruct (py_int a) as [h |]; [| discriminate].
  destruct (py_int b) as [m |]; [| discriminate].
  intros H. apply make_time_ok in H. destruct H as [_ Hv]. exact Hv.
Qed.

(** The first [try] block raises an [OverflowError] exactly when the
    override is two parts that [int] reads, one of them as a number that
    does not fit a C [int]; every other exception it raises is a
    [ValueError]. *)
Lemma override_time_raises (py_int : string -> option Z) (text : string)
    (e : exn) :
  override_time py_int text = Raise e ->
  e = ValueError \/
  (e = OverflowError /\
   exists a b h m,
     str_split ":" text = [a; b] /\ py_int a = Some h /\ py_int b = Some m /\
     (c_int h && c_int m)%bool = false).
Proof.
  unfold override_time.
  destruct (str_split ":" text) as [| a [| b [| c l]]];
    try (intros [= <-]; left; reflexivity).
  destruct (py_int a) as [h |] eqn:Ha; [| intros [= <-]; left; reflexivity].
  destruct (py_int b) as [m |] eqn:Hb; [| intros [= <-]; left; reflexivity].
  intros H. apply make_time_raises in H.
  destruct H as [[-> _] | [-> Hc]]; [left; reflexivity |].
  right. split; [reflexivity |]. exists a, b, h, m. repeat split; assumption.
Qed.

Lemma sun_time_valid (fromisoformat : string -> option instant)
    (sun : option SunEntity) (t : time) :
  sun_time fromisoformat sun = Some t -> valid_time t.
Proof.
  unfold sun_time.
  destruct sun as [sun |]; [| discriminate].
  destruct (String.eqb (state sun) "above_horizon"); [| discriminate].
  destruct (next_setting sun) as [setting |]; [| discriminate].
  destruct (next_rising sun) as [rising |]; [| discriminate].
  destruct (nonempty setting && nonempty rising)%bool; [| discriminate].
  destruct (fromisoformat setting) as [st |]; [| discriminate].
  destruct (fromisoformat rising) as [rt |]; [| discriminate].
  destruct (instant_sub st rt) as [d |]; [| discriminate].
  intros [= <-]. apply instant_time_valid.
Qed.

Lemma sun_time_below_horizon (fromisoformat : string -> option instant)
    (sun : option SunEntity) :
  (sun = None \/
   exists e, sun = Some e /\ String.eqb (state e) "above_horizon" = false) ->
  sun_time fromisoformat sun = None.
Proof.
  intros [-> | [e [-> He]]]; simpl; [reflexivity |].
  rewrite He. reflexivity.
Qed.

(** Once the override is out of the way, [get_solar_noon] returns a time of
    day: the one computed from the sun entity, or 12:00. *)
Lemma solar_noon_without_override (py_int : string -> option Z)
    (fromisoformat : string -> option instant) (sun : option SunEntity) :
  exists t : time,
    get_solar_noon py_int fromisoformat sun None = Ok t /\ valid_time t.
Proof.
  unfold get_solar_noon. simpl.
  destruct (sun_time fromisoformat sun) as [t |] eqn:Ht.
  - exists t. split; [reflexivity |].
    exact (sun_time_valid fromisoformat sun t Ht).
  - exists (mk_time 12 0). split; [reflexivity |].
    unfold valid_time; simpl. lia.
Qed.

(** An override whose first [try] block raises a [ValueError] is as good as
    none. *)
Lemma solar_noon_caught (py_int : string -> option Z)
    (fromisoformat : string -> option instant) (sun : option SunEntity)
    (text : string) :
  override_time py_int text = Raise ValueError ->
  get_solar_noon py_int fromisoformat sun (Some text)
  = get_solar_noon py_int fromisoformat sun None.
Proof.
  intros H. unfold get_solar_noon, override_block.
  destruct (nonempty text); [| reflexivity].
  rewrite H. reflexivity.
Qed.

(** The override 2147483648:00: its hour is one more than the largest C
    [int], and the [OverflowError] of [time] leaves [get_solar_noon]. *)
Example solar_noon_overflowing_override :
  get_solar_noon int_ascii (fun _ => None) None
    (Some "2147483648:00"%string) = Raise OverflowError.
Proof. reflexivity. Qed.

(** X10. [get_solar_noon] returns a time of day with an hour in 0..23 and a
    minute in 0..59, or raises [OverflowError]; it raises exactly when the
    override is two parts around one colon, which [int] reads as two
    numbers, one of which does not fit a C [int] (-2^31 .. 2^31 - 1),
    whatever the state of the sun entity and the texts of its attributes. *)
Theorem solar_noon_valid_or_overflow (py_int : string -> option Z)
    (fromisoformat : string -> option instant)
    (sun : option SunEntity) (override : option string) :
  let overflowing :=
    exists text a b h m,
      override = Some text /\ str_split ":" text = [a; b] /\
      py_int a = Some h /\ py_int b = Some m /\
      (c_int h && c_int m)%bool = false in
  match get_solar_noon py_int fromisoformat sun override with
  | Ok t => valid_time t /\ ~ overflowing
  | Raise e => e = OverflowError /\ overflowing
  end.
Proof.
  intros overflowing.
  destruct (solar_noon_without_override py_int fromisoformat sun)
    as [t0 [Ht0 Hv0]].
  assert (Hnone : get_solar_noon py_int fromisoformat sun None = Ok t0 ->
                  forall text, override = Some text ->
                  (nonempty text = false \/
                   override_time py_int text = Raise ValueError) ->
                  get_solar_noon py_int fromisoformat sun override = Ok t0).
  { intros H text -> [Hne | Hv].
    - unfold get_solar_noon, override_block in *. rewrite Hne. exact H.
    - rewrite (solar_noon_caught py_int fromisoformat sun text Hv). exact H. }
  destruct override as [text |].
  - destruct (nonempty text) eqn:Hne.
    + destruct (override_time py_int text) as [t | e] eqn:Ho.
      * (* the override is returned *)
        assert (Hg : get_solar_noon py_int fromisoformat sun (Some text)
                     = Ok t).
        { unfold get_solar_noon, override_block. rewrite Hne, Ho.
          reflexivity. }
        rewrite Hg. split; [exact (override_time_valid py_int text t Ho) |].
        intros [text' [a [b [h [m [[= <-] [Hs [Ha [Hb Hc]]]]]]]]].
        unfold override_time in Ho. rewrite Hs, Ha, Hb in Ho.
        rewrite (make_time_overflow h m Hc) in Ho. discriminate Ho.
      * destruct (override_time_raises py_int text e Ho)
          as [-> | [-> [a [b [h [m [Hs [Ha [Hb Hc]]]]]]]]].
        -- (* a caught error *)
           rewrite (Hnone Ht0 text eq_refl (or_intror Ho)).
           split; [exact Hv0 |].
           intros [text' [a [b [h [m [[= <-] [Hs [Ha [Hb Hc]]]]]]]]].
           unfold override_time in Ho. rewrite Hs, Ha, Hb in Ho.
           rewrite (make_time_overflow h m Hc) in Ho. discriminate Ho.
        -- (* the error that is not caught *)
           assert (Hg : get_solar_noon py_int fromisoformat sun (Some text)
                        = Raise OverflowError).
           { unfold get_solar_noon, override_block. rewrite Hne, Ho.
             reflexivity. }
           rewrite Hg. split; [reflexivity |].
           exists text, a, b, h, m. repeat split; assumption.
    + (* an empty override *)
      rewrite (Hnone Ht0 text eq_refl (or_introl Hne)).
      split; [exact Hv0 |].
      intros [text' [a [b [h [m [[= <-] [Hs _]]]]]]].
      destruct text; [discriminate Hs | discriminate Hne].
  - rewrite Ht0. split; [exact Hv0 |].
    intros [text [a [b [h [m [Habs _]]]]]]. discriminate Habs.
Qed.

(** X11. An override made of two parts around one colon, which [int] reads
    as an hour in 0..23 and a minute in 0..59, is the solar noon, whatever
    the sun entity says. *)
Theorem solar_noon_override_wins (py_int : string -> option Z)
    (fromisoformat : string -> option instant)
    (sun : option SunEntity) (text a b : string) (h m : Z) :
  str_split ":" text = [a; b] ->
  py_int a = Some h ->
  py_int b = Some m ->
  (0 <= h <= 23)%Z ->
  (0 <= m <= 59)%Z ->
  get_solar_noon py_int fromisoformat sun (Some text) = Ok (mk_time h m).
Proof.
  intros Hsplit Ha Hb Hh Hm. unfold get_solar_noon, override_block.
  assert (Hne : nonempty text = true).
  { destruct text; [discriminate Hsplit | reflexivity]. }
  rewrite Hne. unfold override_time.
  rewrite Hsplit, Ha, Hb, make_time_valid by assumption. reflexivity.
Qed.

Lemma solar_noon_override_wins_witness :
  get_solar_noon int_ascii (fun _ => None)
    (Some (mk_sun "above_horizon" None None)) (Some "14:30"%string)
  = Ok (mk_time 14 30).
Proof.
  apply (solar_noon_override_wins int_ascii (fun _ => None)
           (Some (mk_sun "above_horizon" None None))
           "14:30" "14" "30" 14 30);
    solve [reflexivity | lia].
Defined.

(** X12. An override that is not two parts around one colon, or whose parts
    [int] does not read, or that denotes two numbers that fit a C [int] and
    are not an hour in 0..23 and a minute in 0..59, is ignored: the result
    is the one computed without override. *)
Theorem solar_noon_malformed_override_ignored (py_int : string -> option Z)
    (fromisoformat : string -> option instant)
    (sun : option SunEntity) (text : string) :
  (List.length (str_split ":" text) <> 2%nat \/
   exists a b,
     str_split ":" text = [a; b] /\
     (py_int a = None \/ py_int b = None \/
      exists h m, py_int a = Some h /\ py_int b = Some m /\
                  c_int h = true /\ c_int m = true /\
                  ~ ((0 <= h <= 23)%Z /\ (0 <= m <= 59)%Z))) ->
  get_solar_noon py_int fromisoformat sun (Some text)
  = get_solar_noon py_int fromisoformat sun None.
Proof.
  intros H. apply solar_noon_caught.
  unfold override_time. destruct H as [Hlen | [a [b [Hs Hbad]]]].
  - destruct (str_split ":" text) as [| a [| b [| c l]]];
      try reflexivity. exfalso. apply Hlen. reflexivity.
  - rewrite Hs. destruct Hbad as [Ha | [Hb | [h [m [Ha [Hb [Hch [Hcm Hr]]]]]]]].
    + rewrite Ha. reflexivity.
    + rewrite Hb. destruct (py_int a); reflexivity.
    + rewrite Ha, Hb. apply make_time_invalid; assumption.
Qed.

Lemma solar_noon_malformed_override_ignored_witness :
  get_solar_noon int_ascii (fun _ => None) None (Some "24:30"%string)
  = get_solar_noon int_ascii (fun _ => None) None None.
Proof.
  apply (solar_noon_malformed_override_ignored int_ascii (fun _ => None)
           None "24:30").
  right. exists "24"%string, "30"%string. split; [reflexivity |].
  right. right. exists 24%Z, 30%Z.
  split; [reflexivity |]. split; [reflexivity |].
  split; [reflexivity |]. split; [reflexivity | lia].
Defined.

(** X13. Without an override, or with an empty one, and with a sun entity
    that is missing or not above the horizon, the solar noon is 12:00. *)
Theorem solar_noon_falls_back_to_noon (py_int : string -> option Z)
    (fromisoformat : string -> option instant) (sun : option SunEntity) :
  (sun = None \/
   exists e, sun = Some e /\ String.eqb (state e) "above_horizon" = false) ->
  get_solar_noon py_int fromisoformat sun None = Ok (mk_time 12 0) /\
  get_solar_noon py_int fromisoformat sun (Some ""%string)
  = Ok (mk_time 12 0).
Proof.
  intros H. unfold get_solar_noon. simpl.
  rewrite (sun_time_below_horizon fromisoformat sun H). split; reflexivity.
Qed.

Lemma solar_noon_falls_back_to_noon_witness :
  get_solar_noon int_ascii (fun _ => None)
    (Some (mk_sun "below_horizon" None None)) None = Ok (mk_time 12 0) /\
  get_solar_noon int_ascii (fun _ => None)
    (Some (mk_sun "below_horizon" None None)) (Some ""%string)
  = Ok (mk_time 12 0).
Proof.
  apply (solar_noon_falls_back_to_noon int_ascii (fun _ => None)
           (Some (mk_sun "below_horizon" None None))).
  right. exists (mk_sun "below_horizon" None None).
  split; reflexivity.
Defined.

(** ** The solar position and the rising indicator *)

Lemma position_in_range (hass : HomeAssistant) (solar_noon : time) :
  valid_time (time_of (now hass)) ->
  valid_time solar_noon ->
  -12 <= get_current_solar_position hass solar_noon <= 12.
Proof.
  intros Hnow Hnoon.
  apply valid_time_hours in Hnow, Hnoon.
  unfold get_current_solar_position.
  destruct (Rlt_dec 12 _) as [Hhi | Hhi]; [lra |].
  destruct (Rlt_dec _ (-12)) as [Hlo | Hlo]; lra.
Qed.

Lemma rising_in_window (hass : HomeAssistant) (solar_noon : time)
    (wave_spread : R) :
  -6 * wave_spread <= get_current_solar_position hass solar_noon
                   <= 6 * wave_spread ->
  is_temperature_rising hass solar_noon wave_spread = true.
Proof.
  intros [Hlo Hhi]. unfold is_temperature_rising.
  apply andb_true_iff; split; apply Rle_b_true; lra.
Qed.

(** X14. The offset of a time of day [a] from a solar noon [b] is the
    opposite of the offset of [b] from a solar noon [a], on any days; in
    particular the offset of a time from itself is 0. *)
Theorem solar_position_antisymmetric (a b : time) (day_a day_b : Z) :
  get_current_solar_position (mk_hass (mk_datetime day_a a)) b
  = - get_current_solar_position (mk_hass (mk_datetime day_b b)) a /\
  get_current_solar_position (mk_hass (mk_datetime day_a a)) a = 0.
Proof.
  unfold get_current_solar_position; simpl.
  set (ha := IZR (hour a) + IZR (minute a) / 60).
  set (hb := IZR (hour b) + IZR (minute b) / 60).
  split.
  - destruct (Rlt_dec 12 (ha - hb)); destruct (Rlt_dec (ha - hb) (-12));
      destruct (Rlt_dec 12 (hb - ha)); destruct (Rlt_dec (hb - ha) (-12));
      lra.
  - destruct (Rlt_dec 12 (ha - ha)); destruct (Rlt_dec (ha - ha) (-12)); lra.
Qed.

(** X15. With a spread of 2 or more the indicator reports "rising" at every
    time of day: the window of 6 * spread hours on each side of the solar
    noon covers the whole range of offsets. *)
Theorem rising_all_day_for_wide_spread (hass : HomeAssistant)
    (solar_noon : time) (wave_spread : R) :
  valid_time (time_of (now hass)) ->
  valid_time solar_noon ->
  2 <= wave_spread ->
  is_temperature_rising hass solar_noon wave_spread = true.
Proof.
  intros Hnow Hnoon Hws.
  pose proof (position_in_range hass solar_noon Hnow Hnoon) as [Hlo Hhi].
  unfold is_temperature_rising.
  apply andb_true_iff; split; apply Rle_b_true; lra.
Qed.

Lemma rising_all_day_for_wide_spread_witness :
  is_temperature_rising (at_time 23 30) (mk_time 1 0) 2 = true.
Proof.
  apply (rising_all_day_for_wide_spread (at_time 23 30) (mk_time 1 0) 2);
    solve [unfold valid_time; simpl; lia | lra].
Defined.

(** X16. With a negative spread the indicator never reports "rising": the
    window is empty. *)
Theorem never_rising_for_negative_spread (hass : HomeAssistant)
    (solar_noon : time) (wave_spread : R) :
  wave_spread < 0 ->
  is_temperature_rising hass solar_noon wave_spread = false.
Proof.
  intros Hws.
  destruct (is_temperature_rising hass solar_noon wave_spread) eqn:Hr;
    [| reflexivity].
  unfold is_temperature_rising in Hr.
  apply andb_true_iff in Hr. destruct Hr as [H1 H2].
  apply Rle_b_true in H1, H2. lra.
Qed.

Lemma never_rising_for_negative_spread_witness :
  is_temperature_rising (at_time 12 0) (mk_time 12 0) (-1) = false.
Proof.
  apply (never_rising_for_negative_spread (at_time 12 0) (mk_time 12 0) (-1)).
  lra.
Defined.

(** ** Point reading, again *)

(** With a non-zero spread the point reading is computed, stepped or not. *)
Lemma current_temperature_ok (self : DailyTemperatureWaveSensor)
    (hass : HomeAssistant) (solar_noon : time) (stepwise : bool) :
  _wave_spread self <> 0 ->
  _calculate_current_temperature self hass solar_noon stepwise =
  Ok (convert_from_celsius
        (let temp_c :=
           _min_temp_c self
           + (_max_temp_c self - _min_temp_c self)
             * ((sin (PI * get_current_solar_position hass solar_noon
                      / (12 * _wave_spread self)) + 1) / 2) in
         if stepwise then
           round_to_step temp_c
             (convert_to_celsius (_step_resolution self) (_step_unit self))
         else temp_c)
        (_unit_system self)).
Proof.
  intros Hws. unfold _calculate_current_temperature.
  rewrite truediv_nonzero by lra. reflexivity.
Qed.

(** Inside the rising window the argument of the sine is between -PI/2 and
    PI/2. *)
Lemma rising_window_argument (p ws : R) :
  0 < ws -> -6 * ws <= p <= 6 * ws ->
  - (PI / 2) <= PI * p / (12 * ws) <= PI / 2.
Proof.
  intros Hws [Hlo Hhi].
  pose proof PI_RGT_0 as Hpi.
  replace (PI * p / (12 * ws)) with (PI / 2 * (p / (6 * ws)))
    by (field; lra).
  assert (Ha : -1 <= p / (6 * ws) <= 1).
  { split.
    - apply Rmult_le_reg_r with (6 * ws); [lra |].
      replace (p / (6 * ws) * (6 * ws)) with p by (field; lra). lra.
    - apply Rmult_le_reg_r with (6 * ws); [lra |].
      replace (p / (6 * ws) * (6 * ws)) with p by (field; lra). lra. }
  split; nra.
Qed.

(** X17. While the indicator reports "rising", the point reading does not
    decrease: of two instants inside the rising window, the later offset has
    the warmer (or equal) reading, stepped or not, in any display unit. *)
Theorem reading_increases_while_rising (self : DailyTemperatureWaveSensor)
    (hass1 hass2 : HomeAssistant) (solar_noon : time) (stepwise : bool) :
  0 < _wave_spread self ->
  _min_temp_c self <= _max_temp_c self ->
  is_temperature_rising hass1 solar_noon (_wave_spread self) = true ->
  is_temperature_rising hass2 solar_noon (_wave_spread self) = true ->
  get_current_solar_position hass1 solar_noon
    <= get_current_solar_position hass2 solar_noon ->
  exists t1 t2 : R,
    _calculate_current_temperature self hass1 solar_noon stepwise = Ok t1 /\
    _calculate_current_temperature self hass2 solar_noon stepwise = Ok t2 /\
    t1 <= t2.
Proof.
  intros Hws Hrange Hr1 Hr2 Hle.
  rewrite !current_temperature_ok by lra.
  eexists. eexists. split; [reflexivity |]. split; [reflexivity |].
  unfold is_temperature_rising in Hr1, Hr2.
  apply andb_true_iff in Hr1, Hr2.
  destruct Hr1 as [H1a H1b]. destruct Hr2 as [H2a H2b].
  apply Rle_b_true in H1a, H1b, H2a, H2b.
  set (p1 := get_current_solar_position hass1 solar_noon) in *.
  set (p2 := get_current_solar_position hass2 solar_noon) in *.
  assert (Hsin : sin (PI * p1 / (12 * _wave_spread self))
                 <= sin (PI * p2 / (12 * _wave_spread self))).
  { pose proof (rising_window_argument p1 (_wave_spread self) Hws) as A1.
    pose proof (rising_window_argument p2 (_wave_spread self) Hws) as A2.
    apply sin_incr_1; try (apply A1; lra); try (apply A2; lra).
    pose proof PI_RGT_0 as Hpi.
    unfold Rdiv. apply Rmult_le_compat_r.
    - left. apply Rinv_0_lt_compat. lra.
    - apply Rmult_le_compat_l; lra. }
  apply convert_from_celsius_le. cbv zeta.
  assert (Htemp :
    _min_temp_c self + (_max_temp_c self - _min_temp_c self)
      * ((sin (PI * p1 / (12 * _wave_spread self)) + 1) / 2)
    <= _min_temp_c self + (_max_temp_c self - _min_temp_c self)
      * ((sin (PI * p2 / (12 * _wave_spread self)) + 1) / 2)) by nra.
  destruct stepwise; [apply round_to_step_monotone |]; exact Htemp.
Qed.

Lemma reading_increases_while_rising_witness :
  exists t1 t2 : R,
    _calculate_current_temperature default_sensor (at_time 12 0)
      (mk_time 12 0) false = Ok t1 /\
    _calculate_current_temperature default_sensor (at_time 18 0)
      (mk_time 12 0) false = Ok t2 /\
    t1 <= t2.
Proof.
  apply (reading_increases_while_rising default_sensor (at_time 12 0)
           (at_time 18 0) (mk_time 12 0) false).
  - simpl. lra.
  - simpl. lra.
  - apply rising_in_window. rewrite position_at_noon. simpl. lra.
  - exact rising_at_upper_edge.
  - rewrite position_at_noon.
    unfold get_current_solar_position; simpl.
    destruct (Rlt_dec 12 (18 + 0 / 60 - (12 + 0 / 60))) as [H | _]; [lra |].
    destruct (Rlt_dec (18 + 0 / 60 - (12 + 0 / 60)) (-12)) as [H | _]; lra.
Defined.

(** X18. With a non-zero spread and a range in order, the unstepped point
    reading lies between the configured minimum and maximum, each taken in
    the display unit. *)
Theorem reading_within_range (self : DailyTemperatureWaveSensor)
    (hass : HomeAssistant) (solar_noon : time) :
  _wave_spread self <> 0 ->
  _min_temp_c self <= _max_temp_c self ->
  exists t : R,
    _calculate_current_temperature self hass solar_noon false = Ok t /\
    convert_from_celsius (_min_temp_c self) (_unit_system self) <= t
      <= convert_from_celsius (_max_temp_c self) (_unit_system self).
Proof.
  intros Hws Hrange.
  rewrite current_temperature_ok by assumption. cbv zeta.
  eexists. split; [reflexivity |].
  pose proof (SIN_bound (PI * get_current_solar_position hass solar_noon
                         / (12 * _wave_spread self))) as [Hlo Hhi].
  set (s := sin _) in *.
  split; apply convert_from_celsius_le; nra.
Qed.

Lemma reading_within_range_witness :
  exists t : R,
    _calculate_current_temperature fahrenheit_sensor (at_time 23 30)
      (mk_time 1 0) false = Ok t /\
    convert_from_celsius (_min_temp_c fahrenheit_sensor)
      (_unit_system fahrenheit_sensor) <= t
      <= convert_from_celsius (_max_temp_c fahrenheit_sensor)
           (_unit_system fahrenheit_sensor).
Proof.
  apply (reading_within_range fahrenheit_sensor (at_time 23 30) (mk_time 1 0));
    simpl; lra.
Defined.

(** ** Stepping *)

Lemma for_each_ext {A B : Type} (f g : A -> result B) (l : list A) :
  (forall a, f a = g a) -> for_each f l = for_each g l.
Proof.
  intros Hfg. induction l as [| a l IH]; simpl; [reflexivity |].
  rewrite Hfg, IH. reflexivity.
Qed.

(** A step given in Fahrenheit, of 32 degrees or less, becomes a Celsius
    step that is zero or negative. *)
Lemma fahrenheit_step_nonpositive (step : R) :
  step <= 32 -> convert_to_celsius step "F" <= 0.
Proof. intros H. unfold convert_to_celsius. simpl. lra. Qed.

(** X19. With a step in Fahrenheit of 32 degrees or less (the default step
    is "1F"), stepping does nothing: the stepped point reading, 24-hour
    forecast and 7-day forecast equal the unstepped ones.  The step is
    converted as if it were a temperature, which gives a Celsius step that
    is not positive. *)
Theorem fahrenheit_step_has_no_effect (self : DailyTemperatureWaveSensor)
    (hass : HomeAssistant) (solar_noon : time) :
  _step_unit self = "F"%string ->
  _step_resolution self <= 32 ->
  _calculate_current_temperature self hass solar_noon true
    = _calculate_current_temperature self hass solar_noon false /\
  _generate_24h_forecast self hass solar_noon true
    = _generate_24h_forecast self hass solar_noon false /\
  _generate_7d_forecast self hass solar_noon true
    = _generate_7d_forecast self hass solar_noon false.
Proof.
  intros Hunit Hstep.
  assert (Hid : forall v,
            round_to_step v (convert_to_celsius (_step_resolution self)
                                                (_step_unit self)) = v).
  { intros v. rewrite Hunit. unfold round_to_step.
    pose proof (fahrenheit_step_nonpositive _ Hstep) as Hn.
    destruct (Rle_dec (convert_to_celsius (_step_resolution self) "F") 0);
      [reflexivity | contradiction]. }
  split; [| split].
  - unfold _calculate_current_temperature.
    destruct (truediv _ _); simpl; [rewrite Hid |]; reflexivity.
  - unfold _generate_24h_forecast. apply for_each_ext. intros h.
    unfold forecast_24h_item.
    destruct (truediv _ _); simpl; [rewrite Hid |]; reflexivity.
  - unfold _generate_7d_forecast. apply for_each_ext. intros d.
    unfold forecast_7d_item.
    destruct (truediv _ _); simpl; [rewrite !Hid |]; reflexivity.
Qed.

Lemma fahrenheit_step_has_no_effect_witness :
  _calculate_current_temperature default_sensor (at_time 9 15) (mk_time 12 0)
    true
    = _calculate_current_temperature default_sensor (at_time 9 15)
        (mk_time 12 0) false /\
  _generate_24h_forecast default_sensor (at_time 9 15) (mk_time 12 0) true
    = _generate_24h_forecast default_sensor (at_time 9 15) (mk_time 12 0)
        false /\
  _generate_7d_forecast default_sensor (at_time 9 15) (mk_time 12 0) true
    = _generate_7d_forecast default_sensor (at_time 9 15) (mk_time 12 0) false.
Proof.
  apply (fahrenheit_step_has_no_effect default_sensor (at_time 9 15)
           (mk_time 12 0)).
  - reflexivity.
  - simpl. lra.
Defined.

(** X20. With a positive step in Celsius and a Celsius display, the stepped
    point reading is an integer multiple of the step and is at most half a
    step away from the unstepped reading. *)
Theorem stepped_reading_on_grid (self : DailyTemperatureWaveSensor)
    (hass : HomeAssistant) (solar_noon : time) :
  _wave_spread self <> 0 ->
  String.eqb (upper (_step_unit self)) "F" = false ->
  String.eqb (upper (_unit_system self)) "F" = false ->
  0 < _step_resolution self ->
  exists (t stepped : R) (k : Z),
    _calculate_current_temperature self hass solar_noon false = Ok t /\
    _calculate_current_temperature self hass solar_noon true = Ok stepped /\
    stepped = IZR k * _step_resolution self /\
    Rabs (stepped - t) <= _step_resolution self / 2.
Proof.
  intros Hws Hsu Hdu Hstep.
  rewrite !current_temperature_ok by assumption. cbv zeta.
  unfold convert_from_celsius, convert_to_celsius. rewrite Hsu, Hdu.
  set (t := _min_temp_c self + _).
  exists t, (round_to_step t (_step_resolution self)),
    (round (t / _step_resolution self)).
  split; [reflexivity |]. split; [reflexivity |]. split.
  - unfold round_to_step.
    destruct (Rle_dec (_step_resolution self) 0); [lra | reflexivity].
  - pose proof (round_half_bounds (t / _step_resolution self)) as H.
    unfold round_to_step.
    destruct (Rle_dec (_step_resolution self) 0) as [Hn | _]; [lra |].
    replace (IZR (round (t / _step_resolution self)) * _step_resolution self
             - t)
      with ((IZR (round (t / _step_resolution self))
             - t / _step_resolution self) * _step_resolution self)
      by (field; lra).
    apply Rabs_le. split; nra.
Qed.

Lemma stepped_reading_on_grid_witness :
  exists (t stepped : R) (k : Z),
    _calculate_current_temperature (mk_sensor 20 30 0.5 "C" 1 "metric")
      (at_time 9 15) (mk_time 12 0) false = Ok t /\
    _calculate_current_temperature (mk_sensor 20 30 0.5 "C" 1 "metric")
      (at_time 9 15) (mk_time 12 0) true = Ok stepped /\
    stepped = IZR k * _step_resolution (mk_sensor 20 30 0.5 "C" 1 "metric") /\
    Rabs (stepped - t)
      <= _step_resolution (mk_sensor 20 30 0.5 "C" 1 "metric") / 2.
Proof.
  apply (stepped_reading_on_grid (mk_sensor 20 30 0.5 "C" 1 "metric")
           (at_time 9 15) (mk_time 12 0));
    solve [reflexivity | simpl; lra].
Defined.

(** ** Forecasts *)

Section LoopInversion.

Context {A B : Type}.
Variable body : A -> result B.

Lemma for_each_length (l : list A) (bs : list B) :
  for_each body l = Ok bs -> List.length bs = List.length l.
Proof.
  revert bs. induction l as [| a l IH]; simpl; intros bs H.
  - injection H as <-. reflexivity.
  - destruct (body a) as [b | e]; simpl in H; [| discriminate].
    destruct (for_each body l) as [bs' | e]; simpl in H; [| discriminate].
    injection H as <-. simpl. rewrite (IH bs') by reflexivity. reflexivity.
Qed.

(** Every item of the list a loop returns was produced by the body, from the
    element at the same position. *)
Lemma for_each_nth (l : list A) (bs : list B) (i : nat) (b : B) :
  for_each body l = Ok bs ->
  nth_error bs i = Some b ->
  exists a, nth_error l i = Some a /\ body a = Ok b.
Proof.
  revert bs i. induction l as [| a l IH]; simpl; intros bs i H Hb.
  - injection H as <-. destruct i; discriminate.
  - destruct (body a) as [b0 | e] eqn:Ha; simpl in H; [| discriminate].
    destruct (for_each body l) as [bs' | e]; simpl in H; [| discriminate].
    injection H as <-.
    destruct i as [| i]; simpl in Hb.
    + injection Hb as <-. exists a. split; [reflexivity | exact Ha].
    + apply (IH bs' i); [reflexivity | exact Hb].
Qed.

(** A loop whose body never raises returns a list. *)
Lemma for_each_total (l : list A) :
  (forall a, exists b, body a = Ok b) ->
  exists bs, for_each body l = Ok bs.
Proof.
  intros Hbody. induction l as [| a l [bs IH]]; simpl.
  - eexists. reflexivity.
  - destruct (Hbody a) as [b Hb]. rewrite Hb, IH. simpl.
    eexists. reflexivity.
Qed.

End LoopInversion.

(** The item of the 24-hour forecast for [hour] is the point reading of a
    host whose clock is [hour] hours ahead, rounded to one decimal, with the
    offset of that clock rounded to two decimals. *)
Lemma forecast_24h_item_as_reading (self : DailyTemperatureWaveSensor)
    (now : datetime) (solar_noon : time) (stepwise : bool) (hour : Z) :
  forecast_24h_item self now solar_noon stepwise hour =
  (t <- _calculate_current_temperature self (mk_hass (add_hours now hour))
          solar_noon stepwise ;;
   Ok (mk_hourly (add_hours now hour) (round_ndigits t 1)
         (round_ndigits
            (get_current_solar_position (mk_hass (add_hours now hour))
               solar_noon) 2))).
Proof.
  unfold forecast_24h_item, _calculate_current_temperature,
    get_current_solar_position.
  cbn [Solar.now time_of]. destruct (truediv _ _); reflexivity.
Qed.

(** X22. With a non-zero spread the 24-hour forecast has 24 items; the item
    of index [i] carries the instant [i] hours from now, the point reading
    that a host would give at that instant, rounded to one decimal, and the
    solar position of that instant rounded to two decimals. *)
Theorem forecast_24h_agrees_with_reading (self : DailyTemperatureWaveSensor)
    (hass : HomeAssistant) (solar_noon : time) (stepwise : bool) :
  _wave_spread self <> 0 ->
  exists items,
    _generate_24h_forecast self hass solar_noon stepwise = Ok items /\
    List.length items = 24%nat /\
    forall (i : nat) (it : hourly_item),
      nth_error items i = Some it ->
      let later := mk_hass (add_hours (now hass) (Z.of_nat i)) in
      hi_time it = now later /\
      hi_hours_from_noon it
        = round_ndigits (get_current_solar_position later solar_noon) 2 /\
      exists t : R,
        _calculate_current_temperature self later solar_noon stepwise = Ok t /\
        hi_temperature it = round_ndigits t 1.
Proof.
  intros Hws. unfold _generate_24h_forecast.
  destruct (for_each_total
              (forecast_24h_item self (now hass) solar_noon stepwise)
              (range 24)) as [items Hitems].
  { intros h. rewrite forecast_24h_item_as_reading.
    rewrite current_temperature_ok by exact Hws. simpl.
    eexists. reflexivity. }
  exists items. split; [exact Hitems |]. split.
  - rewrite (for_each_length _ _ _ Hitems). reflexivity.
  - intros i it Hit.
    set (later := mk_hass (add_hours (now hass) (Z.of_nat i))).
    destruct (for_each_nth _ _ _ _ _ Hitems Hit) as [h [Hh Hbody]].
    apply nth_error_range in Hh. destruct Hh as [-> _].
    rewrite forecast_24h_item_as_reading in Hbody. fold later in Hbody.
    destruct (_calculate_current_temperature self later solar_noon stepwise)
      as [t | e]; simpl in Hbody; [| discriminate].
    injection Hbody as <-. simpl.
    split; [reflexivity |]. split; [reflexivity |].
    exists t. split; reflexivity.
Qed.

Lemma forecast_24h_agrees_with_reading_witness :
  exists items,
    _generate_24h_forecast default_sensor (at_time 9 15) (mk_time 12 0) false
      = Ok items /\
    List.length items = 24%nat /\
    forall (i : nat) (it : hourly_item),
      nth_error items i = Some it ->
      let later := mk_hass (add_hours (now (at_time 9 15)) (Z.of_nat i)) in
      hi_time it = now later /\
      hi_hours_from_noon it
        = round_ndigits (get_current_solar_position later (mk_time 12 0)) 2 /\
      exists t : R,
        _calculate_current_temperature default_sensor later (mk_time 12 0)
          false = Ok t /\
        hi_temperature it = round_ndigits t 1.
Proof.
  apply (forecast_24h_agrees_with_reading default_sensor (at_time 9 15)
           (mk_time 12 0) false).
  simpl. lra.
Defined.

(** Rounding to [n] decimals leaves an integer unchanged. *)
Lemma round_ndigits_IZR (z : Z) (n : nat) : round_ndigits (IZR z) n = IZR z.
Proof.
  unfold round_ndigits.
  assert (Hp : 0 < 10 ^ n) by (apply pow_lt; lra).
  replace (10 ^ n) with (IZR (10 ^ Z.of_nat n)) in *
    by (rewrite <- pow_IZR; reflexivity).
  rewrite <- mult_IZR, round_IZR, mult_IZR. field. lra.
Qed.

(** An instant [h] hours later has a valid time of day as soon as the
    minute of the clock is valid. *)
Lemma add_hours_valid (dt : datetime) (h : Z) :
  (0 <= minute (time_of dt) <= 59)%Z -> valid_time (time_of (add_hours dt h)).
Proof.
  intros Hm. unfold valid_time, add_hours; simpl.
  pose proof (Z.mod_pos_bound (hour (time_of dt) + h) 24). lia.
Qed.

(** X23. With a non-zero spread, a valid minute on the clock and a valid
    solar noon, the [hours_from_noon] field of every item of the 24-hour
    forecast lies in [-12, 12]. *)
Theorem forecast_24h_offsets_bounded (self : DailyTemperatureWaveSensor)
    (hass : HomeAssistant) (solar_noon : time) (stepwise : bool) :
  _wave_spread self <> 0 ->
  (0 <= minute (time_of (now hass)) <= 59)%Z ->
  valid_time solar_noon ->
  exists items,
    _generate_24h_forecast self hass solar_noon stepwise = Ok items /\
    forall it, In it items -> -12 <= hi_hours_from_noon it <= 12.
Proof.
  intros Hws Hm Hnoon. unfold _generate_24h_forecast.
  destruct (for_each_total
              (forecast_24h_item self (now hass) solar_noon stepwise)
              (range 24)) as [items Hitems].
  { intros h. rewrite forecast_24h_item_as_reading.
    rewrite current_temperature_ok by exact Hws. simpl.
    eexists. reflexivity. }
  exists items. split; [exact Hitems |].
  intros it Hin.
  apply In_nth_error in Hin. destruct Hin as [i Hit].
  destruct (for_each_nth _ _ _ _ _ Hitems Hit) as [h [_ Hbody]].
  rewrite forecast_24h_item_as_reading in Hbody.
  destruct (_calculate_current_temperature self _ solar_noon stepwise)
    as [t | e]; simpl in Hbody; [| discriminate].
  injection Hbody as <-. simpl.
  pose proof (position_in_range (mk_hass (add_hours (now hass) h)) solar_noon
                (add_hours_valid (now hass) h Hm) Hnoon) as [Hlo Hhi].
  split.
  - rewrite <- (round_ndigits_IZR (-12) 2).
    apply round_ndigits_monotone. exact Hlo.
  - rewrite <- (round_ndigits_IZR 12 2).
    apply round_ndigits_monotone. exact Hhi.
Qed.

Lemma forecast_24h_offsets_bounded_witness :
  exists items,
    _generate_24h_forecast default_sensor (at_time 9 15) (mk_time 12 0) false
      = Ok items /\
    forall it, In it items -> -12 <= hi_hours_from_noon it <= 12.
Proof.
  apply (forecast_24h_offsets_bounded default_sensor (at_time 9 15)
           (mk_time 12 0) false);
    solve [simpl; lra | simpl; lia | unfold valid_time; simpl; lia].
Defined.

(** ** Seven-day forecast, again *)

(** With a spread of 1 or more, the sine sampled for the "minimum" of the
    day is not negative. *)
Lemma sine_at_12_nonnegative (ws : R) :
  1 <= ws -> 0 <= sin (PI * 12 / (12 * ws)).
Proof.
  intros Hws. pose proof PI_RGT_0 as Hpi.
  replace (PI * 12 / (12 * ws)) with (PI / ws) by (field; lra).
  apply sin_ge_0.
  - apply Rmult_le_pos; [lra |]. left. apply Rinv_0_lt_compat. lra.
  - apply Rmult_le_reg_r with ws; [lra |].
    replace (PI / ws * ws) with PI by (field; lra). nra.
Qed.



(** X24. With a spread of 1 or more and a range in order, the 7-day forecast
    has seven records, for today and the six following days, and in each of
    them the [max] field is not above the [min] field: the "maximum" is
    sampled where the sine is 0 and the "minimum" where it is 0 or more. *)
Theorem forecast_7d_max_not_above_min (self : DailyTemperatureWaveSensor)
    (hass : HomeAssistant) (solar_noon : time) (stepwise : bool) :
  1 <= _wave_spread self ->
  _min_temp_c self <= _max_temp_c self ->
  exists items,
    _generate_7d_forecast self hass solar_noon stepwise = Ok items /\
    List.length items = 7%nat /\
    forall (i : nat) (it : daily_item),
      nth_error items i = Some it ->
      di_date it = (toordinal (now hass) + Z.of_nat i)%Z /\
      di_max it <= di_min it.
Proof.
  intros Hws Hrange. unfold _generate_7d_forecast.
  destruct (for_each_total (forecast_7d_item self (now hass) stepwise)
              (range 7)) as [items Hitems].
  { intros d. unfold forecast_7d_item.
    rewrite truediv_nonzero by lra. simpl.
    destruct stepwise; eexists; reflexivity. }
  exists items. split; [exact Hitems |]. split.
  - rewrite (for_each_length _ _ _ Hitems). reflexivity.
  - intros i it Hit.
    destruct (for_each_nth _ _ _ _ _ Hitems Hit) as [d [Hd Hbody]].
    apply nth_error_range in Hd. destruct Hd as [-> _].
    unfold forecast_7d_item in Hbody.
    rewrite truediv_nonzero in Hbody by lra. simpl in Hbody.
    pose proof (sine_at_12_nonnegative (_wave_spread self) Hws) as Hsin.
    rewrite sin_0 in Hbody.
    set (s := sin (PI * 12 / (12 * _wave_spread self))) in *.
    assert (Htemp :
      _min_temp_c self + (_max_temp_c self - _min_temp_c self) * ((0 + 1) / 2)
      <= _min_temp_c self
         + (_max_temp_c self - _min_temp_c self) * ((s + 1) / 2)) by nra.
    destruct stepwise; injection Hbody as <-; simpl;
      (split; [reflexivity |]);
      apply round_ndigits_monotone, convert_from_celsius_le.
    + apply round_to_step_monotone. exact Htemp.
    + exact Htemp.
Qed.

Lemma forecast_7d_max_not_above_min_witness :
  exists items,
    _generate_7d_forecast (mk_sensor 20 30 1 "F" 2 "metric") (at_time 9 15)
      (mk_time 12 0) false = Ok items /\
    List.length items = 7%nat /\
    forall (i : nat) (it : daily_item),
      nth_error items i = Some it ->
      di_date it = (toordinal (now (at_time 9 15)) + Z.of_nat i)%Z /\
      di_max it <= di_min it.
Proof.
  apply (forecast_7d_max_not_above_min (mk_sensor 20 30 1 "F" 2 "metric")
           (at_time 9 15) (mk_time 12 0) false); simpl; lra.
Defined.

(** ** Visual frame, again *)

(** With a non-zero spread and a non-empty range the frame is produced: its
    25 points are the samples of hours 0 to 24 and its marker is computed
    from the point reading. *)
Lemma visual_data_ok (self : DailyTemperatureWaveSensor)
    (hass : HomeAssistant) (solar_noon : time) :
  _wave_spread self <> 0 ->
  _max_temp_c self <> _min_temp_c self ->
  exists (vd : visual_data) (t : R),
    _generate_visual_data self hass solar_noon = Ok vd /\
    _calculate_current_temperature self hass solar_noon false = Ok t /\
    List.length (points vd) = 25%nat /\
    (forall (i : nat) (p : point),
       nth_error (points vd) i = Some p ->
       visual_point self (Z.of_nat i) = Ok p) /\
    current_position vd
    = mk_position
        ((get_current_solar_position hass solar_noon + 12) * 10)
        (100 - (t - _min_temp_c self) * 100
               / (_max_temp_c self - _min_temp_c self))
        (round_ndigits t 1)
        (round_ndigits (get_current_solar_position hass solar_noon) 1) /\
    solar_noon_of vd = solar_noon /\
    temperature_range_of vd
    = mk_range (_min_temp_c self) (_max_temp_c self) (_unit_system self).
Proof.
  intros Hws Hrange.
  destruct (for_each_total (visual_point self) (range 25)) as [pts Hpts].
  { intros h. unfold visual_point.
    rewrite truediv_nonzero by lra. simpl.
    rewrite truediv_nonzero by lra. eexists. reflexivity. }
  unfold _generate_visual_data. rewrite Hpts. simpl.
  rewrite current_temperature_ok by exact Hws. simpl.
  rewrite truediv_nonzero by lra.
  eexists. eexists. split; [reflexivity |]. split; [reflexivity |]. simpl.
  split; [rewrite (for_each_length _ _ _ Hpts); reflexivity |].
  split; [| repeat split].
  intros i p Hp.
  destruct (for_each_nth _ _ _ _ _ Hpts Hp) as [h [Hh Hbody]].
  apply nth_error_range in Hh. destruct Hh as [-> _]. exact Hbody.
Qed.

(** X25. On a Celsius display, with a non-zero spread, a range in strict
    order and valid times, the marker of the current position lies inside
    the frame: its abscissa is in [0, 240] and its ordinate in [0, 100]. *)
Theorem visual_marker_in_frame (self : DailyTemperatureWaveSensor)
    (hass : HomeAssistant) (solar_noon : time) :
  _wave_spread self <> 0 ->
  _min_temp_c self < _max_temp_c self ->
  String.eqb (upper (_unit_system self)) "F" = false ->
  valid_time (time_of (now hass)) ->
  valid_time solar_noon ->
  exists vd : visual_data,
    _generate_visual_data self hass solar_noon = Ok vd /\
    0 <= cp_x (current_position vd) <= 240 /\
    0 <= cp_y (current_position vd) <= 100.
Proof.
  intros Hws Hlt Hunit Hnow Hnoon.
  destruct (visual_data_ok self hass solar_noon Hws) as
    [vd [t [Hvd [Ht [_ [_ [Hcp _]]]]]]]; [lra |].
  exists vd. split; [exact Hvd |]. rewrite Hcp. simpl.
  pose proof (position_in_range hass solar_noon Hnow Hnoon) as [Hlo Hhi].
  split; [lra |].
  rewrite current_temperature_ok in Ht by exact Hws.
  injection Ht as <-. cbv zeta.
  unfold convert_from_celsius. rewrite Hunit.
  pose proof (SIN_bound (PI * get_current_solar_position hass solar_noon
                         / (12 * _wave_spread self))) as [Hs0 Hs1].
  set (s := sin _) in *.
  replace ((_min_temp_c self
            + (_max_temp_c self - _min_temp_c self) * ((s + 1) / 2)
            - _min_temp_c self) * 100
           / (_max_temp_c self - _min_temp_c self))
    with (50 * (s + 1)) by (field; lra).
  lra.
Qed.

Lemma visual_marker_in_frame_witness :
  exists vd : visual_data,
    _generate_visual_data default_sensor (at_time 23 30) (mk_time 1 0)
      = Ok vd /\
    0 <= cp_x (current_position vd) <= 240 /\
    0 <= cp_y (current_position vd) <= 100.
Proof.
  apply (visual_marker_in_frame default_sensor (at_time 23 30) (mk_time 1 0));
    solve [simpl; lra | reflexivity | unfold valid_time; simpl; lia].
Defined.

(** X26. When the current solar position is a whole number of hours,
    [i - 12] with [i] in 0..24, the marker of the current position sits on
    the point of index [i] of the curve: same abscissa, same ordinate, same
    temperature label. *)
Theorem visual_marker_on_curve (self : DailyTemperatureWaveSensor)
    (hass : HomeAssistant) (solar_noon : time) (i : nat) :
  _wave_spread self <> 0 ->
  _max_temp_c self <> _min_temp_c self ->
  (i <= 24)%nat ->
  get_current_solar_position hass solar_noon = IZR (Z.of_nat i) - 12 ->
  exists (vd : visual_data) (p : point),
    _generate_visual_data self hass solar_noon = Ok vd /\
    nth_error (points vd) i = Some p /\
    cp_x (current_position vd) = IZR (x p) /\
    cp_y (current_position vd) = y p /\
    cp_temp (current_position vd) = temp p.
Proof.
  intros Hws Hrange Hi Hpos.
  destruct (visual_data_ok self hass solar_noon Hws Hrange) as
    [vd [t [Hvd [Ht [Hlen [Hpts [Hcp _]]]]]]].
  destruct (nth_error (points vd) i) as [p |] eqn:Hp.
  - exists vd, p. split; [exact Hvd |]. split; [exact Hp |].
    apply Hpts in Hp. unfold visual_point in Hp.
    rewrite truediv_nonzero in Hp by lra. simpl in Hp.
    rewrite truediv_nonzero in Hp by lra.
    injection Hp as <-.
    rewrite current_temperature_ok in Ht by exact Hws.
    injection Ht as <-. cbv zeta.
    rewrite Hcp, Hpos. simpl.
    rewrite minus_IZR, mult_IZR.
    split; [lra |]. split; reflexivity.
  - exfalso. apply nth_error_None in Hp. lia.
Qed.

Lemma visual_marker_on_curve_witness :
  exists (vd : visual_data) (p : point),
    _generate_visual_data default_sensor (at_time 12 0) (mk_time 0 0)
      = Ok vd /\
    nth_error (points vd) 24 = Some p /\
    cp_x (current_position vd) = IZR (x p) /\
    cp_y (current_position vd) = y p /\
    cp_temp (current_position vd) = temp p.
Proof.
  apply (visual_marker_on_curve default_sensor (at_time 12 0) (mk_time 0 0)
           24).
  - simpl. lra.
  - simpl. lra.
  - lia.
  - rewrite position_12_after. simpl. lra.
Defined.

(** ** The solar noon from the sun entity *)

Import SunScenario.

Lemma half_timedelta_near (d : Z) :
  (-1 <= 2 * half_timedelta d - d <= 1)%Z.
Proof.
  unfold half_timedelta.
  pose proof (Z.div_mod d 2 ltac:(lia)) as Hd.
  pose proof (Z.mod_pos_bound d 2 ltac:(lia)) as Hm.
  destruct (d mod 2 =? 0)%Z eqn:H0.
  - apply Z.eqb_eq in H0. lia.
  - apply Z.eqb_neq in H0. destruct (Z.even (d / 2)); lia.
Qed.

Example solar_noon_of_sun_example :
  get_solar_noon int_ascii iso_example (Some sun_example) None
  = Ok (mk_time 12 0)
  /\ get_solar_noon int_ascii iso_example (Some sun_example)
       (Some "7:05"%string) = Ok (mk_time 7 5).
Proof. split; reflexivity. Qed.

(** X28. Without a usable override, when the sun entity is above the horizon
    and both of its timestamps are read by [fromisoformat], with the same
    offset from UTC or both without offset, the solar noon is the time of
    day of an instant that is, up to half a microsecond, halfway between the
    sunrise and the sunset. *)
Theorem solar_noon_is_midpoint (py_int : string -> option Z)
    (fromisoformat : string -> option instant) (sun : SunEntity)
    (setting rising : string) (setting_time rising_time : instant) :
  state sun = "above_horizon"%string ->
  next_setting sun = Some setting ->
  next_rising sun = Some rising ->
  nonempty setting = true ->
  nonempty rising = true ->
  fromisoformat setting = Some setting_time ->
  fromisoformat rising = Some rising_time ->
  utcoffset setting_time = utcoffset rising_time ->
  exists middle : Z,
    get_solar_noon py_int fromisoformat (Some sun) None
    = Ok (instant_time (mk_instant middle (utcoffset rising_time))) /\
    (-1 <= 2 * middle - (wall rising_time + wall setting_time) <= 1)%Z.
Proof.
  intros Hstate Hs Hr Hns Hnr Hst Hrt Hoff.
  unfold get_solar_noon, sun_time.
  rewrite Hstate, String.eqb_refl, Hs, Hr, Hns, Hnr. cbn [andb].
  rewrite Hst, Hrt. unfold instant_sub. rewrite Hoff.
  destruct (utcoffset rising_time) as [o |].
  - exists (wall rising_time
            + half_timedelta (wall setting_time - o - (wall rising_time - o)))%Z.
    split; [reflexivity |].
    pose proof (half_timedelta_near
                  (wall setting_time - o - (wall rising_time - o))). lia.
  - exists (wall rising_time
            + half_timedelta (wall setting_time - wall rising_time))%Z.
    split; [reflexivity |].
    pose proof (half_timedelta_near (wall setting_time - wall rising_time)).
    lia.
Qed.

Lemma solar_noon_is_midpoint_witness :
  exists middle : Z,
    get_solar_noon int_ascii iso_example (Some sun_example) None
    = Ok (instant_time (mk_instant middle None)) /\
    (-1 <= 2 * middle
           - ((739037 * 86400000000 + 6 * 3600000000)
              + (739037 * 86400000000 + 18 * 3600000000)) <= 1)%Z.
Proof.
  apply (solar_noon_is_midpoint int_ascii iso_example sun_example
           "2024-06-01T18:00:00" "2024-06-01T06:00:00"
           (mk_instant (739037 * 86400000000 + 18 * 3600000000)%Z None)
           (mk_instant (739037 * 86400000000 + 6 * 3600000000)%Z None));
    reflexivity.
Defined.

(** X29. When one of the two timestamps carries an offset from UTC and the
    other does not, their difference cannot be taken: without a usable
    override the solar noon falls back to 12:00. *)
Theorem solar_noon_mixed_offsets_fall_back (py_int : string -> option Z)
    (fromisoformat : string -> option instant) (sun : SunEntity)
    (setting rising : string) (setting_time rising_time : instant) :
  next_setting sun = Some setting ->
  next_rising sun = Some rising ->
  fromisoformat setting = Some setting_time ->
  fromisoformat rising = Some rising_time ->
  (utcoffset setting_time = None <-> utcoffset rising_time <> None) ->
  get_solar_noon py_int fromisoformat (Some sun) None = Ok (mk_time 12 0).
Proof.
  intros Hs Hr Hst Hrt Hmix.
  unfold get_solar_noon, sun_time.
  rewrite Hs, Hr.
  destruct (String.eqb (state sun) "above_horizon"); [| reflexivity].
  destruct (nonempty setting && nonempty rising)%bool; [| reflexivity].
  rewrite Hst, Hrt. unfold instant_sub.
  destruct (utcoffset setting_time) as [a |];
    destruct (utcoffset rising_time) as [b |]; try reflexivity.
  - exfalso. destruct Hmix as [_ H]. discriminate H. discriminate.
  - exfalso. destruct Hmix as [H _]. apply H; reflexivity.
Qed.

Lemma solar_noon_mixed_offsets_fall_back_witness :
  get_solar_noon int_ascii
    (fun text => if String.eqb text "a"
                 then Some (mk_instant 64800000000 (Some 0%Z))
                 else Some (mk_instant 21600000000 None))
    (Some (mk_sun "above_horizon" (Some "a"%string) (Some "b"%string))) None
  = Ok (mk_time 12 0).
Proof.
  apply (solar_noon_mixed_offsets_fall_back int_ascii
           (fun text => if String.eqb text "a"
                        then Some (mk_instant 64800000000 (Some 0%Z))
                        else Some (mk_instant 21600000000 None))
           (mk_sun "above_horizon" (Some "a"%string) (Some "b"%string))
           "a" "b"
           (mk_instant 64800000000 (Some 0%Z))
           (mk_instant 21600000000 None));
    try reflexivity.
  split; [intros H; discriminate H | intros H; exfalso; apply H; reflexivity].
Defined.
